(** * mitre-layer-gen: ATT&CK Navigator layer generation from detection YAML

    A shallow embedding of [scripts/generate_layers.py] and
    [scripts/network_layer.py], and the properties of the aggregation
    engine they share.

    Modelling conventions.
    - A Python [str] is a [string]; characters are classified as in ASCII
      text ([\d] is [0-9], [\w] is [A-Za-z0-9_], [str.lower]/[str.upper]
      act on [A-Z]/[a-z]). The patterns of the scripts are [str] patterns
      without [re.ASCII]: on text with other characters [\d] also accepts
      the other decimal digits of Unicode and [\b] takes the other letters
      for word characters. What is said of the shape of the ids found is
      therefore said of ASCII text ([ascii_text]).
    - A Python [int] is a [Z].
    - A [dict]/[defaultdict] keyed by technique id is a [gmap string _];
      a read of a missing key of a [defaultdict] yields the default.
    - [sorted] is a merge sort for the code-point order on strings.
    - The external YAML parser and the content of files are an interface
      ([Host]); everything is proved for every implementation of it. *)

From Stdlib Require Import ZArith NArith Ascii.
From stdpp Require Import base option list sorting gmap strings pretty.

Local Open Scope Z_scope.
Local Set Warnings "-register-all,-clear-no-such-hyp".

(** ** Characters and the [str] methods the scripts call *)

Module Py.

Definition code (c : ascii) : N := N_of_ascii c.

Definition in_range (lo hi : N) (c : ascii) : bool :=
  ((lo <=? code c) && (code c <=? hi))%N.

Definition is_upper : ascii → bool := in_range 65 90.
Definition is_lower : ascii → bool := in_range 97 122.
Definition is_digit : ascii → bool := in_range 48 57.

(** [\w] *)
Definition is_word (c : ascii) : bool :=
  is_upper c || is_lower c || is_digit c || bool_decide (c = "_"%char).

(** [str.isspace] on ASCII: TAB..CR, FS..US and the space. *)
Definition is_space (c : ascii) : bool :=
  in_range 9 13 c || in_range 28 32 c.

Definition chr_lower (c : ascii) : ascii :=
  if is_upper c then ascii_of_N (code c + 32) else c.
Definition chr_upper (c : ascii) : ascii :=
  if is_lower c then ascii_of_N (code c - 32) else c.

Fixpoint smap (f : ascii → ascii) (s : string) : string :=
  match s with
  | EmptyString => EmptyString
  | String c s' => String (f c) (smap f s')
  end.

(** [s.lower()], [s.upper()] *)
Definition lower : string → string := smap chr_lower.
Definition upper : string → string := smap chr_upper.

(** [s.lstrip()], [s.strip()] *)
Fixpoint lstrip (s : string) : string :=
  match s with
  | EmptyString => EmptyString
  | String c s' => if is_space c then lstrip s' else s
  end.
Definition strip (s : string) : string :=
  String.rev (lstrip (String.rev (lstrip s))).

(** [s.replace(old, new)] for a one-character [old]. *)
Fixpoint replace (old : ascii) (new : string) (s : string) : string :=
  match s with
  | EmptyString => EmptyString
  | String c s' =>
      if bool_decide (c = old) then new +:+ replace old new s'
      else String c (replace old new s')
  end.

(** [s.split(sep)] for a one-character [sep]: never the empty list. *)
Fixpoint split (sep : ascii) (s : string) : list string :=
  match s with
  | EmptyString => [EmptyString]
  | String c s' =>
      if bool_decide (c = sep) then EmptyString :: split sep s'
      else match split sep s' with
           | [] => [String c EmptyString]
           | w :: ws => String c w :: ws
           end
  end.

(** [sep.join(l)] *)
Fixpoint join (sep : string) (l : list string) : string :=
  match l with
  | [] => EmptyString
  | [x] => x
  | x :: l' => x +:+ sep +:+ join sep l'
  end.

(** [s.startswith(p)], [s.endswith(p)], and [endswith] of a tuple. *)
Fixpoint startswith (s p : string) : bool :=
  match p, s with
  | EmptyString, _ => true
  | String a p', String b s' => bool_decide (a = b) && startswith s' p'
  | String _ _, EmptyString => false
  end.
Definition endswith (s p : string) : bool :=
  startswith (String.rev s) (String.rev p).
Definition endswith_any (s : string) (ps : list string) : bool :=
  existsb (endswith s) ps.

(** [sorted(l)] on strings. *)
Definition sorted (l : list string) : list string := merge_sort String.le l.

(** [sorted(set(l))]: the order in which the set is iterated is lost in
    the sort. *)
Definition sorted_set (l : list string) : list string :=
  sorted (remove_dups l).

(** [str(n)] *)
Definition str_of_int (n : Z) : string := pretty n.

End Py.

(** ** The regular expressions of [re] that [TECHNIQUE_RE] is built from *)

Module Re.

Inductive regex : Type :=
  | Eps
  | Bnd                              (* \b *)
  | Cls (p : ascii → bool)           (* one character of a class *)
  | Cat (r1 r2 : regex)
  | Opt (r : regex).                 (* (?:r)?, greedy *)

(** r{n} *)
Fixpoint Rep (n : nat) (r : regex) : regex :=
  match n with
  | O => Eps
  | S n' => Cat r (Rep n' r)
  end.

(** A literal character under [re.IGNORECASE]. *)
Definition Chr_i (c : ascii) : regex :=
  Cls (λ x, bool_decide (Py.chr_lower x = Py.chr_lower c)).

Definition word_before (prev : option ascii) : bool :=
  match prev with Some c => Py.is_word c | None => false end.
Definition word_after (s : string) : bool :=
  match s with String c _ => Py.is_word c | EmptyString => false end.

(** Backtracking matcher in continuation-passing style. The state is the
    character before the cursor, the text after it and the number of
    characters consumed so far; the result is the length of the match. *)
Fixpoint rmatch (r : regex) (prev : option ascii) (s : string) (n : nat)
    (k : option ascii → string → nat → option nat) : option nat :=
  match r with
  | Eps => k prev s n
  | Bnd => if xorb (word_before prev) (word_after s) then k prev s n else None
  | Cls p =>
      match s with
      | String c s' => if p c then k (Some c) s' (S n) else None
      | EmptyString => None
      end
  | Cat r1 r2 => rmatch r1 prev s n (λ prev' s' n', rmatch r2 prev' s' n' k)
  | Opt r1 =>
      match rmatch r1 prev s n k with
      | Some m => Some m
      | None => k prev s n
      end
  end.

Definition match_at (r : regex) (prev : option ascii) (s : string) : option nat :=
  rmatch r prev s 0 (λ _ _ n, Some n).

Fixpoint prefix_of_length (n : nat) (s : string) : string :=
  match n, s with
  | S n', String c s' => String c (prefix_of_length n' s')
  | _, _ => EmptyString
  end.

(** [r.findall(s)] for a pattern without groups that has no empty match:
    leftmost matches, not overlapping. [skip] counts the characters of the
    last match still to be passed over. *)
Fixpoint findall_go (r : regex) (prev : option ascii) (s : string) (skip : nat)
    : list string :=
  match s with
  | EmptyString => []
  | String c s' =>
      match skip with
      | S k => findall_go r (Some c) s' k
      | O =>
          match match_at r prev s with
          | Some (S m) => prefix_of_length (S m) s :: findall_go r (Some c) s' m
          | _ => findall_go r (Some c) s' 0
          end
      end
  end.

Definition findall (r : regex) (s : string) : list string :=
  findall_go r None s 0.

End Re.

(** [TECHNIQUE_RE = re.compile(r"\bT\d{4}(?:\.\d{3})?\b", re.IGNORECASE)],
    with the classes [\d] and [\w] as they are on ASCII text. *)
Definition TECHNIQUE_RE : Re.regex :=
  Re.Cat Re.Bnd
    (Re.Cat (Re.Chr_i "T")
       (Re.Cat (Re.Rep 4 (Re.Cls Py.is_digit))
          (Re.Cat
             (Re.Opt (Re.Cat (Re.Cls (λ c, bool_decide (c = "."%char)))
                             (Re.Rep 3 (Re.Cls Py.is_digit))))
             Re.Bnd))).

(** ** Values, the host interface and the outcome of a run *)

(** What [yaml.safe_load] can return. A mapping is kept as its list of
    entries; its keys may be any scalar. *)
Inductive yaml : Type :=
  | YNull
  | YBool (b : bool)
  | YInt (n : Z)
  | YOther                              (* float, date, binary, ... *)
  | YStr (s : string)
  | YList (items : list yaml)
  | YDict (entries : list (yaml * yaml)).

Abbreviation pydict := (list (yaml * yaml)).

(** [yaml.safe_load(raw)] either returns a value or raises an [Exception]
    (a [yaml.YAMLError], a [RecursionError], ...). *)
Inductive load_result : Type :=
  | Loaded (v : yaml)
  | LoadError (what : string).

Inductive exn : Type :=
  | SystemExit (msg : string)
  | OSError (msg : string).

Inductive outcome (A : Type) : Type :=
  | Returns (a : A)
  | Raises (e : exn).
Arguments Returns {A} a.
Arguments Raises {A} e.

(** A directory as [os.walk] sees it: the sub-directories and the other
    entries, each in the order [os.scandir] lists them. *)
Inductive dir : Type :=
  | Dir (subdirs : list (string * dir)) (files : list string).

(** What the scripts ask of their environment. *)
Class Host : Type := {
  (** [open(path, "r", encoding="utf-8").read()] *)
  read_text : string → string;
  (** [yaml.safe_load] *)
  safe_load : string → load_result;
  (** [os.path.abspath] *)
  abspath : string → string;
  (** the directory tree found at a path *)
  tree_at : string → dir;
  (** whether [os.makedirs] and [open(path, "w")] succeed for a path *)
  writable : string → bool;
}.

(** ** [os.path] and [os.walk] (POSIX) *)

Module OsPath.

Definition sep : ascii := "/"%char.

(** [os.path.join(a, b)] *)
Definition join (a b : string) : string :=
  if Py.startswith b "/" then b
  else if bool_decide (a = "") || Py.endswith a "/" then a +:+ b
  else a +:+ "/" +:+ b.

(** [p[:i]] and [p[i:]] for [i = p.rfind("/") + 1], on the reversed
    string: the reversed tail and the reversed head. *)
Fixpoint rsplit_rev (r : string) : string * string :=
  match r with
  | EmptyString => (EmptyString, EmptyString)
  | String c r' =>
      if bool_decide (c = sep) then (EmptyString, r)
      else let '(t, h) := rsplit_rev r' in (String c t, h)
  end.

(** [os.path.basename(p)] *)
Definition basename (p : string) : string :=
  String.rev (rsplit_rev (String.rev p)).1.

Fixpoint lstrip_sep (s : string) : string :=
  match s with
  | String c s' => if bool_decide (c = sep) then lstrip_sep s' else s
  | EmptyString => EmptyString
  end.

(** [os.path.dirname(p)]: the head, without its trailing slashes unless it
    is made of slashes only. *)
Definition dirname (p : string) : string :=
  let rhead := (rsplit_rev (String.rev p)).2 in
  match lstrip_sep rhead with
  | EmptyString => String.rev rhead
  | stripped => String.rev stripped
  end.

(** [[x for x in p.split(sep) if x]] *)
Definition components (p : string) : list string :=
  filter (λ x, x ≠ "") (Py.split sep p).

(** [os.path.commonprefix([l1, l2])] on two lists *)
Fixpoint commonprefix (l1 l2 : list string) : list string :=
  match l1, l2 with
  | x :: l1', y :: l2' =>
      if bool_decide (x = y) then x :: commonprefix l1' l2' else []
  | _, _ => []
  end.

(** [os.path.relpath(path, start)] for two absolute, normalised paths (on
    which the [abspath] it applies first changes nothing). *)
Definition relpath (path start : string) : string :=
  let start_list := components start in
  let path_list := components path in
  let i := length (commonprefix start_list path_list) in
  let rel_list := replicate (length start_list - i) ".." ++ drop i path_list in
  match rel_list with
  | [] => "."
  | _ => Py.join "/" rel_list
  end.

End OsPath.

(** [os.walk(top)], top-down, where the loop body begins by pruning
    [dirnames] in place to those that [keep] accepts: one triple
    [(dirpath, dirnames, filenames)] per directory visited. *)
Fixpoint walk (keep : string → bool) (dirpath : string) (d : dir)
    : list (string * list string * list string) :=
  match d with
  | Dir subdirs files =>
      (dirpath, filter (λ n, keep n = true) subdirs.*1, files)
      :: flat_map (λ '(name, sub),
                     if keep name then walk keep (OsPath.join dirpath name) sub
                     else [])
                  subdirs
  end.

(** ** Fact extraction: the functions that are the same in both scripts

    [generate_layers.py] lines 67-121 and [network_layer.py] lines 85-132
    differ in names only ([get_first_str] is [get_first_string] there). *)

Module Extract.

(** [SEVERITY_KEYS], [TECHNIQUE_KEYS] *)
Definition SEVERITY_KEYS : list string := ["Severity"; "severity"].
Definition TECHNIQUE_KEYS : list string := ["MitreTechniques"].

(** [d.get(k)] for a string [k]. *)
Fixpoint dict_get (d : pydict) (k : string) : option yaml :=
  match d with
  | [] => None
  | (YStr k', v) :: d' => if bool_decide (k' = k) then Some v else dict_get d' k
  | _ :: d' => dict_get d' k
  end.

(** The truth value of [d : Optional[Dict]] in [if d] / [if not d]. *)
Definition truthy (d : option pydict) : bool :=
  match d with
  | Some (_ :: _) => true
  | _ => false
  end.

Section with_host.
Context `{Host}.

(** [read_yaml]: the object when it is a mapping, and the raw text. *)
Definition read_yaml (path : string) : option pydict * string :=
  let raw := read_text path in
  match safe_load raw with
  | Loaded (YDict entries) => (Some entries, raw)
  | Loaded _ => (None, raw)
  | LoadError _ => (None, raw)
  end.

End with_host.

(** [get_first_str] *)
Fixpoint get_first_str (d : pydict) (keys : list string) : option string :=
  match keys with
  | [] => None
  | k :: keys' =>
      match dict_get d k with
      | Some (YStr v) =>
          if bool_decide (Py.strip v ≠ "") then Some (Py.strip v)
          else get_first_str d keys'
      | _ => get_first_str d keys'
      end
  end.

(** [get_severity] *)
Definition get_severity (d : option pydict) : string :=
  if negb (truthy d) then "unknown"
  else
    match get_first_str (default [] d) SEVERITY_KEYS with
    | Some s => if bool_decide (s ≠ "") then Py.lower s else "unknown"
    | None => "unknown"
    end.

(** [normalize_techniques] *)
Definition normalize_techniques (value : yaml) : list string :=
  let techs :=
    match value with
    | YStr s => Py.upper <$> Re.findall TECHNIQUE_RE s
    | YList items =>
        foldl (λ techs item,
                 match item with
                 | YStr s => techs ++ (Py.upper <$> Re.findall TECHNIQUE_RE s)
                 | _ => techs
                 end) [] items
    | _ => []
    end in
  Py.sorted_set techs.

(** The fallback of [get_techniques]: scan of the whole text. *)
Definition scan_text (raw_text : string) : list string :=
  Py.sorted_set (Py.upper <$> Re.findall TECHNIQUE_RE raw_text).

(** The [for k in TECHNIQUE_KEYS] loop of [get_techniques] with its early
    [return]. *)
Fixpoint structured_techniques (d : pydict) (keys : list string)
    : option (list string) :=
  match keys with
  | [] => None
  | k :: keys' =>
      match dict_get d k with
      | Some v =>
          match normalize_techniques v with
          | [] => structured_techniques d keys'
          | techs => Some techs
          end
      | None => structured_techniques d keys'
      end
  end.

(** [get_techniques] *)
Definition get_techniques (d : option pydict) (raw_text : string) : list string :=
  match (if truthy d then structured_techniques (default [] d) TECHNIQUE_KEYS
         else None) with
  | Some techs => techs
  | None => scan_text raw_text
  end.

End Extract.

(** ** The aggregation loop and the layer, shared by the two [main]s *)

(** An element of [techniques] in the layer. *)
Record entry : Type := Entry {
  techniqueID : string;
  score : Z;
  comment : string;
  metadata : list (string * string);
}.

(** The Navigator layer that [json.dump] writes. *)
Record layer : Type := Layer {
  name : string;
  domain : string;
  description : string;
  gradient : Z * Z;                     (* minValue, maxValue *)
  layout : string;
  hideDisabled : bool;
  techniques : list entry;
}.

(** What a run leaves behind: the files written and the lines printed. *)
Record world : Type := World {
  written : list (string * layer);
  stdout : list string;
}.

Module Engine.

(** [m[k]] on a [defaultdict]: a missing key is entered with the default. *)
Definition dd_get {V} (dflt : V) (m : gmap string V) (k : string)
    : V * gmap string V :=
  match m !! k with
  | Some v => (v, m)
  | None => (dflt, <[k:=dflt]> m)
  end.

(** The four [defaultdict]s and the two counters of [main]. *)
Record agg : Type := Agg {
  max_score : gmap string Z;
  max_sev : gmap string string;
  counts : gmap string Z;
  examples : gmap string (list string);
  parsed_files : Z;
  skipped_no_technique : Z;
}.

Definition agg_init : agg := Agg ∅ ∅ ∅ ∅ 0 0.

(** The body of [for tid in techs] for a file of score [sc], severity
    [sev] and location label [label]. *)
Definition visit (sc : Z) (sev label : string) (st : agg) (tid : string) : agg :=
  (* counts[tid] += 1 *)
  let '(c, counts1) := dd_get 0 (counts st) tid in
  let counts2 := <[tid := c + 1]> counts1 in
  (* if len(examples[tid]) < 5: examples[tid].append(...) *)
  let '(ex, examples1) := dd_get [] (examples st) tid in
  let examples2 :=
    if bool_decide (length ex < 5)%nat then <[tid := ex ++ [label]]> examples1
    else examples1 in
  (* if score > max_score[tid]: ... *)
  let '(best, max_score1) := dd_get 0 (max_score st) tid in
  if bool_decide (sc > best)
  then Agg (<[tid := sc]> max_score1) (<[tid := sev]> (max_sev st))
           counts2 examples2 (parsed_files st) (skipped_no_technique st)
  else Agg max_score1 (max_sev st)
           counts2 examples2 (parsed_files st) (skipped_no_technique st).

(** The facts of one file: severity, techniques, location label. *)
Record facts : Type := Facts {
  f_sev : string;
  f_techs : list string;
  f_label : string;
}.

Section with_host.
Context `{Host}.

Definition facts_of (ypath : string) : facts :=
  let '(d, raw) := Extract.read_yaml ypath in
  let det_name := OsPath.basename (OsPath.dirname ypath) in
  let file_name := OsPath.basename ypath in
  Facts (Extract.get_severity d) (Extract.get_techniques d raw)
        (det_name +:+ "/" +:+ file_name).

Section with_score.
Variable severity_score : string → Z.

(** The body of [for ypath in yaml_files]. *)
Definition process_file (st : agg) (ypath : string) : agg :=
  let '(d, raw) := Extract.read_yaml ypath in
  let sev := Extract.get_severity d in
  let techs := Extract.get_techniques d raw in
  match techs with
  | [] =>
      Agg (max_score st) (max_sev st) (counts st) (examples st)
          (parsed_files st) (skipped_no_technique st + 1)
  | _ =>
      let st1 := Agg (max_score st) (max_sev st) (counts st) (examples st)
                     (parsed_files st + 1) (skipped_no_technique st) in
      let sc := severity_score sev in
      let det_name := OsPath.basename (OsPath.dirname ypath) in
      let file_name := OsPath.basename ypath in
      foldl (visit sc sev (det_name +:+ "/" +:+ file_name)) st1 techs
  end.

Definition aggregate (yaml_files : list string) : agg :=
  foldl process_file agg_init yaml_files.

End with_score.
End with_host.

(** A value of [technique_info] / [technique_data]. *)
Record info : Type := Info {
  i_score : Z;
  i_max_severity : string;
  i_count : Z;
  i_comment : string;
}.

(** The [for tid in counts.keys()] loop that fills [technique_info]. *)
Definition make_comment (count : Z) (sev : string) (ex : list string) : string :=
  "detections=" +:+ Py.str_of_int count +:+ "; max_sev=" +:+ sev
  +:+ "; examples=" +:+ Py.join ", " ex.

Definition technique_info (st : agg) : gmap string info :=
  map_imap (λ tid cnt,
    let sev := default "unknown" (max_sev st !! tid) in
    Some (Info (default 0 (max_score st !! tid)) sev cnt
               (make_comment cnt sev (default [] (examples st !! tid)))))
    (counts st).

(** The loop of [build_layer] over [sorted(technique_info.keys())]. *)
Definition techniques_arr (ti : gmap string info) : list entry :=
  omap (λ tid,
    i ← ti !! tid;
    Some (Entry tid (i_score i) (i_comment i)
            [("detections_count", Py.str_of_int (i_count i));
             ("max_severity", i_max_severity i)]))
    (Py.sorted (map_to_list ti).*1).

End Engine.

(** [fn.lower().endswith((".yml", ".yaml"))] *)
Definition is_yaml_name (fn : string) : bool :=
  Py.endswith_any (Py.lower fn) [".yml"; ".yaml"].

(** The end of both [main]s: write the layer, print the four lines. *)
Definition emit `{Host} (out_path : string) (l : layer) (lines : list string)
    (w : world) : outcome unit * world :=
  if writable out_path
  then (Returns (), World (written w ++ [(out_path, l)]) (stdout w ++ lines))
  else (Raises (OSError out_path), w).

(** ** [scripts/generate_layers.py] *)

Module GenerateLayers.

Definition SEVERITY_TO_SCORE : gmap string Z :=
  list_to_map [("Sev0", 100); ("Sev1", 90); ("Sev2", 70); ("Sev3", 40); ("Sev4", 20)].

Definition EXCLUDE_DIRS : gset string :=
  list_to_set
    [".git"; ".github"; ".codebuild"; ".cursor"; ".hooks"; ".hooks_scripts";
     "__pycache__"; ".venv"; "venv"; "node_modules"; "dist"; "build";
     "docs"; "infra"; "templates"; "tests";
     "global_helpers"; "procedures"; "schemas"; "signals"; "watchdogs"].

(** [severity_score] *)
Definition severity_score (sev : string) : Z :=
  default 50 (SEVERITY_TO_SCORE !! Py.lower sev).

Section with_host.
Context `{Host}.

(** [iter_yaml_files] *)
Definition iter_yaml_files (root : string) : list string :=
  let out :=
    flat_map (λ '(dirpath, dirnames, filenames),
                OsPath.join dirpath <$> filter (λ fn, is_yaml_name fn = true) filenames)
             (walk (λ d, bool_decide (d ∉ EXCLUDE_DIRS)) root (tree_at root)) in
  Py.sorted out.

(** [build_layer] *)
Definition build_layer (layer_name : string) (ti : gmap string Engine.info) : layer :=
  Layer layer_name "enterprise-attack"
    "Auto-generated from detection YAML files in repo (technique + severity)."
    (0, 100) "side" false (Engine.techniques_arr ti).

(** [main] *)
Definition main (repo_root out_path layer_name : string) (w : world)
    : outcome unit * world :=
  let yaml_files := iter_yaml_files repo_root in
  match yaml_files with
  | [] => (Raises (SystemExit ("No .yaml/.yml files found under: " +:+ repo_root)), w)
  | _ =>
      let st := Engine.aggregate severity_score yaml_files in
      let l := build_layer layer_name (Engine.technique_info st) in
      emit out_path l
        ["Parsed YAML files with techniques: " +:+ Py.str_of_int (Engine.parsed_files st);
         "Skipped YAML files (no techniques found): "
           +:+ Py.str_of_int (Engine.skipped_no_technique st);
         "Wrote layer: " +:+ out_path;
         "Techniques in layer: " +:+ Py.str_of_int (Z.of_nat (length (techniques l)))]
        w
  end.

End with_host.
End GenerateLayers.

(** ** [scripts/network_layer.py] *)

Module NetworkLayer.

Definition SEVERITY_TO_SCORE : gmap string Z :=
  list_to_map [("sev0", 100); ("sev1", 90); ("sev2", 70); ("sev3", 40); ("sev4", 20)].

Definition NETWORK_PLATFORMS : gset string :=
  list_to_set ["Cloudflare"; "Netcraft"; "Datadog"].

Definition EXCLUDE_DIRS : gset string :=
  list_to_set
    [".git"; ".github"; ".codebuild"; ".cursor"; ".hooks"; ".hooks_scripts";
     "__pycache__"; ".venv"; "venv"; "node_modules"; "dist"; "build";
     "docs"; "infra"; "templates"; "tests";
     "global_helpers"; "procedures"; "schemas"; "signals"; "watchdogs"].

(** [parts[0].lower().replace("_", "").replace(" ", "")] *)
Definition platform_of (part0 : string) : string :=
  Py.replace " " "" (Py.replace "_" "" (Py.lower part0)).

(** [{p.lower() for p in NETWORK_PLATFORMS}] *)
Definition allowed : gset string := set_map Py.lower NETWORK_PLATFORMS.

(** [severity_to_score] *)
Definition severity_to_score (severity : string) : Z :=
  default 50 (SEVERITY_TO_SCORE !! Py.lower severity).

Section with_host.
Context `{Host}.

(** The body of the [os.walk] loop of [iter_yaml_files], after the pruning
    of [dirnames]: the paths one directory adds to [results]. *)
Definition visit_dir (root dirpath : string) (filenames : list string) : list string :=
  let rel_path := OsPath.relpath dirpath root in
  let parts := Py.split OsPath.sep rel_path in
  let found :=
    OsPath.join dirpath <$> filter (λ fn, is_yaml_name fn = true) filenames in
  match parts with
  | part0 :: _ =>
      if bool_decide (platform_of part0 ∉ allowed) then [] (* continue *)
      else found
  | [] => found
  end.

(** [iter_yaml_files] *)
Definition iter_yaml_files (root : string) : list string :=
  let root := abspath root in
  let results :=
    flat_map (λ '(dirpath, dirnames, filenames), visit_dir root dirpath filenames)
             (walk (λ d, bool_decide (d ∉ EXCLUDE_DIRS)) root (tree_at root)) in
  Py.sorted results.

(** [build_layer] *)
Definition build_layer (layer_name : string) (td : gmap string Engine.info) : layer :=
  Layer layer_name "enterprise-attack"
    "Auto-generated network-only ATT&CK coverage from Rippling detections."
    (0, 100) "side" false (Engine.techniques_arr td).

(** [main] *)
Definition main (repo_root out_path layer_name : string) (w : world)
    : outcome unit * world :=
  let yaml_files := iter_yaml_files repo_root in
  match yaml_files with
  | [] => (Raises (SystemExit "No Network detection YAML files found."), w)
  | _ =>
      let st := Engine.aggregate severity_to_score yaml_files in
      let l := build_layer layer_name (Engine.technique_info st) in
      emit out_path l
        ["Network detections parsed: " +:+ Py.str_of_int (Engine.parsed_files st);
         "Skipped (no techniques): " +:+ Py.str_of_int (Engine.skipped_no_technique st);
         "Layer written to: " +:+ out_path;
         "Techniques in layer: " +:+ Py.str_of_int (Z.of_nat (length (techniques l)))]
        w
  end.

End with_host.
End NetworkLayer.

(** ** A small host to run the scripts on *)

Module Demo.

Definition rule (sev : string) (techs : list string) : yaml :=
  YDict [(YStr "Severity", YStr sev); (YStr "MitreTechniques", YList (YStr <$> techs))].

(** The text of a file is its path; the parser knows a few of them. *)
Definition load (raw : string) : load_result :=
  if bool_decide (raw = "/r/Cloudflare/ruleA/a.yml") then Loaded (rule "Sev1" ["T1059"; "T1110.001"])
  else if bool_decide (raw = "/r/Okta/ruleB/b.yaml") then Loaded (rule "Sev0" ["T1078"])
  else if bool_decide (raw = "/r/Cloudflare/ruleC/c.YML") then Loaded (rule "Sev0" ["T1059"])
  else if bool_decide (raw = "/r/top.yml") then Loaded (rule "Sev2" ["T1566"])
  else if bool_decide (raw = "/r/Okta/free/T1003.yml") then LoadError "scanner"
  else if bool_decide (raw = "/one/rules/r1/rule.yml") then Loaded (rule "Sev1" ["T1059"; "T1110.001"])
  else Loaded (YStr raw).

Definition tree : dir :=
  Dir [("Cloudflare", Dir [("ruleA", Dir [] ["a.yml"; "notes.txt"]);
                           ("ruleC", Dir [] ["c.YML"]);
                           ("tests", Dir [] ["t.yml"])] []);
       ("Okta", Dir [("ruleB", Dir [] ["b.yaml"]);
                     ("free", Dir [] ["T1003.yml"])] [])]
      ["top.yml"].

(** Scenario 1 of the specification: one rule file, [Severity: Sev1]. *)
Definition single : dir :=
  Dir [("rules", Dir [("r1", Dir [] ["rule.yml"])] [])] [].

Definition host : Host := {|
  read_text p := p;
  safe_load := load;
  abspath p := p;
  tree_at p :=
    if bool_decide (p = "/r") then tree
    else if bool_decide (p = "/one") then single
    else Dir [] [];
  writable p := true;
|}.

End Demo.

(** ** Notions used to state the properties *)

(** The two scripts. *)
Inductive script : Type := AllDetections | NetworkOnly.

Section with_host.
Context `{Host}.

Definition run (v : script) : string → string → string → world → outcome unit * world :=
  match v with
  | AllDetections => GenerateLayers.main
  | NetworkOnly => NetworkLayer.main
  end.

Definition candidates (v : script) (root : string) : list string :=
  match v with
  | AllDetections => GenerateLayers.iter_yaml_files root
  | NetworkOnly => NetworkLayer.iter_yaml_files root
  end.

End with_host.

Definition score_of (v : script) : string → Z :=
  match v with
  | AllDetections => GenerateLayers.severity_score
  | NetworkOnly => NetworkLayer.severity_to_score
  end.

Definition no_input (v : script) (root : string) : exn :=
  match v with
  | AllDetections => SystemExit ("No .yaml/.yml files found under: " +:+ root)
  | NetworkOnly => SystemExit "No Network detection YAML files found."
  end.

(** What the four dictionaries hold for one technique id, read the way
    [main] reads them when it fills [technique_info]. *)
Record summary : Type := Summary {
  s_count : Z;
  s_best : Z;
  s_sev : string;
  s_examples : list string;
}.

Definition view (st : Engine.agg) (tid : string) : summary :=
  Summary (default 0 (Engine.counts st !! tid))
          (default 0 (Engine.max_score st !! tid))
          (default "unknown" (Engine.max_sev st !! tid))
          (default [] (Engine.examples st !! tid)).

Definition summary0 : summary := Summary 0 0 "unknown" [].

(** One more contributing file of score [sc], severity [sev], label [label]. *)
Definition contribute (sc : Z) (sev label : string) (s : summary) : summary :=
  Summary (s_count s + 1)
          (if bool_decide (sc > s_best s) then sc else s_best s)
          (if bool_decide (sc > s_best s) then sev else s_sev s)
          (if bool_decide (length (s_examples s) < 5)%nat
           then s_examples s ++ [label] else s_examples s).

(** The greatest of a list of scores, [0] for none. *)
Definition max_of (scores : list Z) : Z := foldr Z.max 0 scores.

(** Strictly ascending in the order of [sorted]. *)
Definition ascending (l : list string) : Prop :=
  StronglySorted (strict String.le) l.

(** [T] + 4 digits, optionally [.] + 3 digits. *)
Definition is_technique_id (s : string) : bool :=
  match s with
  | String t (String a (String b (String c (String d rest)))) =>
      bool_decide (t = "T"%char)
      && Py.is_digit a && Py.is_digit b && Py.is_digit c && Py.is_digit d
      && match rest with
         | EmptyString => true
         | String p (String e (String f (String g EmptyString))) =>
             bool_decide (p = "."%char)
             && Py.is_digit e && Py.is_digit f && Py.is_digit g
         | _ => false
         end
  | _ => false
  end.

(** The names a directory entry can have: not empty, no separator. *)
Fixpoint no_sep (n : string) : bool :=
  match n with
  | EmptyString => true
  | String c n' => bool_decide (c ≠ OsPath.sep) && no_sep n'
  end.
Definition valid_name (n : string) : bool :=
  bool_decide (n ≠ "") && no_sep n.

Fixpoint valid_tree (d : dir) : bool :=
  match d with
  | Dir subdirs files =>
      forallb valid_name files
      && forallb (λ '(n, sub), valid_name n && valid_tree sub) subdirs
  end.

(** [root/seg1/../segn], built the way [os.walk] builds [dirpath]. *)
Definition path_below (root : string) (segs : list string) : string :=
  foldl OsPath.join root segs.

Definition subdir_names (d : dir) : list string :=
  match d with Dir subdirs _ => subdirs.*1 end.

Definition all_valid (l : list string) : Prop :=
  Forall (λ n, valid_name n = true) l.

(** Whether the parser returned a mapping. *)
Definition loads_mapping (r : load_result) : bool :=
  match r with
  | Loaded (YDict _) => true
  | _ => false
  end.

(** The strings of a [MitreTechniques] value: itself, or its string items. *)
Definition strings_of (value : yaml) : list string :=
  match value with
  | YStr s => [s]
  | YList items => omap (λ item, match item with YStr s => Some s | _ => None end) items
  | _ => []
  end.

(** Text made of ASCII characters only: on it [Py.is_digit] and
    [Py.is_word] are the [\d] and [\w] of the source's pattern. *)
Fixpoint ascii_text (s : string) : bool :=
  match s with
  | EmptyString => true
  | String c s' => (Py.code c <? 128)%N && ascii_text s'
  end.

(** The texts [get_techniques d raw] can scan are ASCII: the raw text and
    the strings of the [MitreTechniques] value. *)
Definition ascii_facts (d : option pydict) (raw : string) : bool :=
  ascii_text raw
  && match d ≫= (λ e, Extract.dict_get e "MitreTechniques") with
     | Some value => forallb ascii_text (strings_of value)
     | None => true
     end.

(** [t] is a match of [TECHNIQUE_RE] in one of the texts, uppercased. *)
Definition ids_in (texts : list string) (t : string) : Prop :=
  ∃ s m, s ∈ texts ∧ m ∈ Re.findall TECHNIQUE_RE s ∧ t = Py.upper m.

(** The scores of the severity table of [network_layer.py], and the default. *)
Definition tier_scores : list Z := [100; 90; 70; 40; 20; 50].

Section facts.
Context `{Host}.

Definition techs_of (p : string) : list string := Engine.f_techs (Engine.facts_of p).
Definition sev_of (p : string) : string := Engine.f_sev (Engine.facts_of p).
Definition label_of (p : string) : string := Engine.f_label (Engine.facts_of p).

(** The files of a list that flag a technique, in the order of the list. *)
Definition contributing (tid : string) (files : list string) : list string :=
  filter (λ p, tid ∈ techs_of p) files.

Definition contribute_file (severity_score : string → Z) (s : summary) (p : string)
    : summary :=
  contribute (severity_score (sev_of p)) (sev_of p) (label_of p) s.

(** The dictionaries at the end of the loop of [main]. *)
Definition final (v : script) (root : string) : Engine.agg :=
  Engine.aggregate (score_of v) (candidates v root).

(** The same for the file at a path. *)
Definition ascii_rule (p : string) : bool :=
  let '(d, raw) := Extract.read_yaml p in ascii_facts d raw.

(** [p] is the file [fn] of the directory [platform/rest] below the root:
    built from names (not empty, without separator), so that [platform] is
    the first path segment of [p] below the root; [platform] is a directory
    of the root and its normalised name is allowed. *)
Definition under_allowed_platform (root p : string) : Prop :=
  ∃ platform rest fn,
    p = OsPath.join (path_below (abspath root) (platform :: rest)) fn
    ∧ all_valid (platform :: rest) ∧ valid_name fn = true
    ∧ OsPath.components p
      = OsPath.components (abspath root) ++ platform :: rest ++ [fn]
    ∧ NetworkLayer.platform_of platform ∈ NetworkLayer.allowed
    ∧ platform ∈ subdir_names (tree_at (abspath root))
    ∧ is_yaml_name fn = true.

End facts.

(** The entry of the layer for a technique, from the dictionaries. *)
Definition entry_of (st : Engine.agg) (tid : string) : entry :=
  let v := view st tid in
  Entry tid (s_best v) (Engine.make_comment (s_count v) (s_sev v) (s_examples v))
        [("detections_count", Py.str_of_int (s_count v)); ("max_severity", s_sev v)].

(** ** Notions used by the further properties *)

Module Demo2.

(** One tree listed in two orders. *)
Definition listed : dir :=
  Dir [("Datadog", Dir [] ["x.yml"; "y.yaml"]); ("Okta", Dir [] ["z.yml"])] ["top.yml"].
Definition relisted : dir :=
  Dir [("Okta", Dir [] ["z.yml"]); ("Datadog", Dir [] ["y.yaml"; "x.yml"])] ["top.yml"].

Definition host_of (t : dir) : Host := {|
  read_text p := p;
  safe_load raw := Loaded (YStr raw);
  abspath p := p;
  tree_at p := t;
  writable p := true;
|}.

End Demo2.

Definition files_of (d : dir) : list string :=
  match d with Dir _ files => files end.

(** [reaches d segs d']: [d'] is the directory [seg1/../segn] below [d]. *)
Inductive reaches : dir → list string → dir → Prop :=
  | reaches_here d : reaches d [] d
  | reaches_step subdirs files n sub segs d' :
      (n, sub) ∈ subdirs → reaches sub segs d' →
      reaches (Dir subdirs files) (n :: segs) d'.

(** Two listings of the same directory tree: the same entries, in any
    order at every level. *)
Inductive same_listing : dir → dir → Prop :=
  | same_listing_dir subs1 subs' subs2 files1 files2 :
      files1 ≡ₚ files2 → subs1 ≡ₚ subs' →
      Forall2 (λ x y, x.1 = y.1 ∧ same_listing x.2 y.2) subs' subs2 →
      same_listing (Dir subs1 files1) (Dir subs2 files2).

(** * Properties *)

(** ** The models on concrete inputs *)

Example findall_free_text :
  Re.findall TECHNIQUE_RE "see T1003 and t1003.002, T1003; not T10034 xT1059 T1059.01 T1059.001x"
  = ["T1003"; "t1003.002"; "T1003"; "T1059"; "T1059"].
Proof. vm_compute. reflexivity. Qed.

Example basename_dirname :
  OsPath.basename "/r/Cloudflare/waf_rule/rule.yml" = "rule.yml"
  ∧ OsPath.dirname "/r/Cloudflare/waf_rule/rule.yml" = "/r/Cloudflare/waf_rule"
  ∧ OsPath.basename (OsPath.dirname "/r/Cloudflare/waf_rule/rule.yml") = "waf_rule"
  ∧ OsPath.dirname "/rule.yml" = "/"
  ∧ OsPath.basename (OsPath.dirname "rule.yml") = ""
  ∧ OsPath.relpath "/r/a b/c" "/r" = "a b/c"
  ∧ OsPath.relpath "/r" "/r" = ".".
Proof. vm_compute. repeat split. Qed.

Example scenario2_text :
  Extract.get_techniques None "note: T1003, again T1003 and t1003.002"
  = ["T1003"; "T1003.002"]
  ∧ Extract.get_severity None = "unknown".
Proof. vm_compute. done. Qed.

Example structured_first :
  let d := [(YStr "Severity", YStr " Sev1 ");
            (YStr "MitreTechniques", YList [YStr "T1110.001"; YInt 7; YStr "t1059, T1059"])] in
  Extract.get_techniques (Some d) "T9999" = ["T1059"; "T1110.001"]
  ∧ Extract.get_severity (Some d) = "sev1".
Proof. vm_compute. done. Qed.

Ltac visit_cases st tid :=
  unfold Engine.visit, Engine.dd_get;
  destruct st as [ms mv cs ex pf sk]; simpl;
  destruct (cs !! tid) eqn:?; destruct (ex !! tid) eqn:?;
  destruct (ms !! tid) eqn:?; simpl;
  repeat case_bool_decide; simpl.

Lemma view_visit_same sc sev label st tid :
  view (Engine.visit sc sev label st tid) tid = contribute sc sev label (view st tid).
Proof.
  unfold view, contribute. visit_cases st tid;
    repeat match goal with H : _ !! _ = _ |- _ => rewrite H; clear H end;
    rewrite ?lookup_insert_eq; simpl; try done; try lia.
Qed.

Lemma view_visit_other sc sev label st tid tid' :
  tid' ≠ tid →
  view (Engine.visit sc sev label st tid) tid' = view st tid'.
Proof.
  intros Hne. unfold view. visit_cases st tid;
    rewrite ?lookup_insert_ne by done; done.
Qed.

Lemma counts_visit sc sev label st tid tid' :
  is_Some (Engine.counts (Engine.visit sc sev label st tid) !! tid')
  ↔ tid' = tid ∨ is_Some (Engine.counts st !! tid').
Proof.
  visit_cases st tid;
    (destruct (decide (tid' = tid)) as [->|Hne];
     [rewrite ?lookup_insert_eq; split; eauto
     |rewrite ?lookup_insert_ne by done; split; [auto|intros [?|?]; done]]).
Qed.

Lemma view_foldl_visit sc sev label techs st tid :
  NoDup techs →
  view (foldl (Engine.visit sc sev label) st techs) tid
  = if bool_decide (tid ∈ techs) then contribute sc sev label (view st tid)
    else view st tid.
Proof.
  intros Hnd. revert st. induction Hnd as [|t techs Hnotin Hnd IH]; intros st; simpl.
  - done.
  - rewrite IH. destruct (decide (tid = t)) as [->|Hne].
    + rewrite bool_decide_eq_false_2 by done.
      rewrite bool_decide_eq_true_2 by left. apply view_visit_same.
    + rewrite view_visit_other by done.
      apply (f_equal (λ b : bool, if b then _ else _)).
      apply bool_decide_ext. rewrite elem_of_cons. naive_solver.
Qed.

Lemma counts_foldl_visit sc sev label techs st tid :
  is_Some (Engine.counts (foldl (Engine.visit sc sev label) st techs) !! tid)
  ↔ tid ∈ techs ∨ is_Some (Engine.counts st !! tid).
Proof.
  revert st. induction techs as [|t techs IH]; intros st; simpl.
  - rewrite elem_of_nil. naive_solver.
  - rewrite IH, counts_visit, elem_of_cons. naive_solver.
Qed.

(** *** [sorted] and [sorted(set(..))] *)

Lemma sorted_perm l : Py.sorted l ≡ₚ l.
Proof. apply merge_sort_Permutation. Qed.

Lemma elem_of_sorted x l : x ∈ Py.sorted l ↔ x ∈ l.
Proof. by rewrite sorted_perm. Qed.

Lemma strict_of_NoDup (l : list string) :
  StronglySorted String.le l → NoDup l → ascending l.
Proof.
  unfold ascending. induction 1 as [|x l Hs IH Hall]; intros Hnd.
  - constructor.
  - apply NoDup_cons in Hnd as [Hx Hnd]. constructor; [by apply IH|].
    rewrite Forall_forall in Hall |- *. intros y Hy. split; [by apply Hall|].
    intros Hyx. assert (x = y) by (apply (anti_symm String.le); auto).
    by subst.
Qed.

Lemma sorted_ascending l : NoDup l → ascending (Py.sorted l).
Proof.
  intros Hnd. apply strict_of_NoDup.
  - apply (StronglySorted_merge_sort String.le).
  - by rewrite sorted_perm.
Qed.


Lemma elem_of_sorted_set x l : x ∈ Py.sorted_set l ↔ x ∈ l.
Proof. unfold Py.sorted_set. by rewrite elem_of_sorted, elem_of_remove_dups. Qed.

Lemma sorted_set_NoDup l : NoDup (Py.sorted_set l).
Proof. unfold Py.sorted_set. rewrite sorted_perm. apply NoDup_remove_dups. Qed.

(** *** Extraction *)

Lemma structured_techniques_Some d keys techs :
  Extract.structured_techniques d keys = Some techs →
  ∃ k v, k ∈ keys ∧ Extract.dict_get d k = Some v
         ∧ techs = Extract.normalize_techniques v ∧ techs ≠ [].
Proof.
  induction keys as [|k keys IH]; simpl; [done|].
  destruct (Extract.dict_get d k) as [v|] eqn:Hget.
  - destruct (Extract.normalize_techniques v) as [|t ts] eqn:Hn.
    + intros (k' & v' & ? & ?)%IH. exists k', v'. rewrite elem_of_cons. naive_solver.
    + intros [= <-]. exists k, v. rewrite elem_of_cons, Hn. naive_solver.
  - intros (k' & v' & ? & ?)%IH. exists k', v'. rewrite elem_of_cons. naive_solver.
Qed.

Lemma get_techniques_NoDup d raw : NoDup (Extract.get_techniques d raw).
Proof.
  unfold Extract.get_techniques.
  destruct (if Extract.truthy d then _ else _) as [techs|] eqn:Hs.
  - destruct (Extract.truthy d); [|done].
    apply structured_techniques_Some in Hs as (k & v & _ & _ & -> & _).
    apply sorted_set_NoDup.
  - apply sorted_set_NoDup.
Qed.

Section aggregation.
Context `{Host}.
Variable severity_score : string → Z.

Lemma techs_of_NoDup p : NoDup (techs_of p).
Proof.
  unfold techs_of, Engine.facts_of. destruct (Extract.read_yaml p) as [d raw]; simpl.
  apply get_techniques_NoDup.
Qed.

Lemma view_process_file st p tid :
  view (Engine.process_file severity_score st p) tid
  = if bool_decide (tid ∈ techs_of p)
    then contribute (severity_score (sev_of p)) (sev_of p) (label_of p) (view st tid)
    else view st tid.
Proof.
  pose proof (techs_of_NoDup p) as Hnd. revert Hnd.
  unfold Engine.process_file, techs_of, sev_of, label_of, Engine.facts_of.
  destruct (Extract.read_yaml p) as [d raw]; simpl.
  destruct (Extract.get_techniques d raw) as [|t ts] eqn:Ht; intros Hnd.
  - by rewrite bool_decide_eq_false_2 by apply not_elem_of_nil.
  - by rewrite view_foldl_visit.
Qed.

Lemma counts_process_file st p tid :
  is_Some (Engine.counts (Engine.process_file severity_score st p) !! tid)
  ↔ tid ∈ techs_of p ∨ is_Some (Engine.counts st !! tid).
Proof.
  unfold Engine.process_file, techs_of, Engine.facts_of.
  destruct (Extract.read_yaml p) as [d raw]; simpl.
  destruct (Extract.get_techniques d raw) as [|t ts] eqn:Ht.
  - simpl. rewrite elem_of_nil. naive_solver.
  - by rewrite counts_foldl_visit.
Qed.

Lemma view_foldl_process_file files st tid :
  view (foldl (Engine.process_file severity_score) st files) tid
  = foldl (contribute_file severity_score) (view st tid) (contributing tid files).
Proof.
  revert st. induction files as [|p files IH]; intros st; simpl; [done|].
  rewrite IH, view_process_file. unfold contributing. rewrite filter_cons.
  case_bool_decide; case_decide; done.
Qed.

Lemma view_aggregate files tid :
  view (Engine.aggregate severity_score files) tid
  = foldl (contribute_file severity_score) summary0 (contributing tid files).
Proof. apply view_foldl_process_file. Qed.

Lemma counts_foldl_process_file files st tid :
  is_Some (Engine.counts (foldl (Engine.process_file severity_score) st files) !! tid)
  ↔ contributing tid files ≠ [] ∨ is_Some (Engine.counts st !! tid).
Proof.
  revert st. induction files as [|p files IH]; intros st; simpl.
  - naive_solver.
  - rewrite IH, counts_process_file. unfold contributing. rewrite filter_cons.
    case_decide; naive_solver.
Qed.

Lemma counts_aggregate files tid :
  is_Some (Engine.counts (Engine.aggregate severity_score files) !! tid)
  ↔ contributing tid files ≠ [].
Proof.
  unfold Engine.aggregate. rewrite counts_foldl_process_file. simpl.
  rewrite lookup_empty. split; [intros [?|[? ?]]; done|by left].
Qed.

End aggregation.

Section closed_forms.
Context `{Host}.
Variable severity_score : string → Z.

Local Abbreviation fold := (foldl (contribute_file severity_score)).
Local Abbreviation score_file := (λ p, severity_score (sev_of p)).

Lemma fold_count ps s :
  s_count (fold s ps) = s_count s + Z.of_nat (length ps).
Proof.
  revert s. induction ps as [|p ps IH]; intros s; simpl; [lia|].
  rewrite IH. simpl. lia.
Qed.

Lemma fold_examples ps s :
  (length (s_examples s) ≤ 5)%nat →
  s_examples (fold s ps) = take 5 (s_examples s ++ (label_of <$> ps)).
Proof.
  revert s. induction ps as [|p ps IH]; intros s Hlen; simpl.
  - rewrite app_nil_r. by rewrite take_ge.
  - rewrite IH; simpl; case_bool_decide; simpl.
    + by rewrite <- app_assoc.
    + rewrite !take_app_le by lia. done.
    + rewrite length_app. simpl. lia.
    + done.
Qed.

Lemma foldr_max_swap (x b : Z) (l : list Z) :
  foldr Z.max (Z.max x b) l = Z.max x (foldr Z.max b l).
Proof. induction l as [|y l IH]; simpl; [done|]. rewrite IH. lia. Qed.

Lemma fold_best ps s :
  s_best (fold s ps) = foldr Z.max (s_best s) (score_file <$> ps).
Proof.
  revert s. induction ps as [|p ps IH]; intros s; simpl; [done|].
  rewrite IH. simpl. rewrite <- foldr_max_swap. f_equal.
  case_bool_decide; lia.
Qed.

Lemma find_ext_in {A} (f g : A → bool) (l : list A) :
  (∀ x, x ∈ l → f x = g x) → find f l = find g l.
Proof.
  induction l as [|x l IH]; intros Hfg; simpl; [done|].
  rewrite <- (Hfg x) by left. destruct (f x); [done|].
  apply IH. intros y Hy. apply Hfg. by right.
Qed.

Lemma find_never {A} (l : list A) : find (λ _, false) l = None.
Proof. by induction l. Qed.

Lemma foldr_max_attained (b : Z) (l : list Z) :
  foldr Z.max b l = b ∨ foldr Z.max b l ∈ l.
Proof.
  induction l as [|y l [IH|IH]]; simpl; [by left|..].
  - rewrite IH. destruct (Z.max_spec y b) as [[_ ->]|[_ ->]]; [by left|right; left].
  - destruct (Z.max_spec y (foldr Z.max b l)) as [[_ ->]|[_ ->]]; right; [by right|left].
Qed.

Lemma foldr_max_ge (b : Z) (l : list Z) :
  b ≤ foldr Z.max b l ∧ ∀ x, x ∈ l → x ≤ foldr Z.max b l.
Proof.
  induction l as [|y l [IH1 IH2]]; simpl.
  - split; [lia|]. intros x Hx. by apply elem_of_nil in Hx.
  - split; [lia|]. intros x [->|Hx]%elem_of_cons; [lia|].
    specialize (IH2 x Hx). lia.
Qed.

Lemma fold_sev ps s :
  s_sev (fold s ps)
  = match find (λ p, bool_decide (score_file p = foldr Z.max (s_best s) (score_file <$> ps)
                                  ∧ score_file p > s_best s)) ps with
    | Some p => sev_of p
    | None => s_sev s
    end.
Proof.
  revert s. induction ps as [|p ps IH]; intros s; [done|].
  cbn [foldl]. rewrite IH. rewrite fmap_cons. cbn [foldr find].
  set (M := foldr Z.max (s_best s) (score_file <$> ps)).
  set (x := severity_score (sev_of p)).
  set (s' := contribute_file severity_score s p).
  assert (s_best s' = Z.max x (s_best s)) as ->.
  { unfold s', contribute_file, contribute. cbn [s_best]. fold x. case_bool_decide; lia. }
  assert (s_sev s' = if bool_decide (x > s_best s) then sev_of p else s_sev s) as -> by done.
  rewrite foldr_max_swap. fold M.
  destruct (foldr_max_ge (s_best s) (score_file <$> ps)) as [Hb _]. fold M in Hb.
  destruct (decide (x > s_best s)) as [Hgt|Hle].
  - rewrite (bool_decide_eq_true_2 (x > _)) by done.
    case_bool_decide as Hp.
    + rewrite (find_ext_in _ (λ _, false)); [by rewrite find_never|].
      intros q Hq. apply bool_decide_eq_false_2. lia.
    + rewrite (find_ext_in _ (λ q, bool_decide (score_file q = Z.max x M
                                                ∧ score_file q > s_best s))).
      * destruct (find _ ps) as [q|] eqn:Hfind; [done|].
        destruct (foldr_max_attained (s_best s) (score_file <$> ps)) as [HMb|HMin].
        { fold M in HMb. lia. }
        fold M in HMin. apply list_elem_of_fmap in HMin as (q & HqM & Hq).
        apply find_none with (x := q) in Hfind; [|by apply list_elem_of_In].
        apply bool_decide_eq_false_1 in Hfind. lia.
      * intros q Hq. apply bool_decide_ext. lia.
  - rewrite (bool_decide_eq_false_2 (x > _)) by done.
    rewrite (bool_decide_eq_false_2 (_ ∧ _)) by lia.
    apply (f_equal (λ o : option string, match o with Some q => sev_of q | None => s_sev s end)).
    apply find_ext_in. intros q Hq. apply bool_decide_ext. lia.
Qed.

(** The summary of a technique after the whole loop, in closed form. *)
Lemma summary_closed files tid :
  (∀ sev, 0 < severity_score sev) →
  let ps := contributing tid files in
  let s := view (Engine.aggregate severity_score files) tid in
  s_count s = Z.of_nat (length ps)
  ∧ s_examples s = take 5 (label_of <$> ps)
  ∧ s_best s = max_of (score_file <$> ps)
  ∧ s_sev s = from_option sev_of "unknown"
                (find (λ p, bool_decide (score_file p = max_of (score_file <$> ps))) ps).
Proof.
  intros Hpos ps s. subst s. rewrite view_aggregate. fold ps.
  rewrite fold_count, fold_examples, fold_best, fold_sev by (simpl; lia).
  simpl. repeat split.
  unfold max_of.
  rewrite (find_ext_in _ (λ p, bool_decide (score_file p = foldr Z.max 0 (score_file <$> ps)))).
  - by destruct (find _ ps).
  - intros q Hq. apply bool_decide_ext. specialize (Hpos (sev_of q)). lia.
Qed.

End closed_forms.

(** *** From the dictionaries to the layer *)

Lemma technique_info_lookup st tid :
  Engine.technique_info st !! tid
  = (λ cnt, Engine.Info (s_best (view st tid)) (s_sev (view st tid)) cnt
              (Engine.make_comment cnt (s_sev (view st tid)) (s_examples (view st tid))))
    <$> Engine.counts st !! tid.
Proof.
  unfold Engine.technique_info. rewrite map_lookup_imap.
  by destruct (Engine.counts st !! tid).
Qed.

Lemma technique_info_is_Some st tid :
  is_Some (Engine.technique_info st !! tid) ↔ is_Some (Engine.counts st !! tid).
Proof. rewrite technique_info_lookup. apply fmap_is_Some. Qed.

Lemma omap_all_Some {A B} (f : A → option B) (g : A → B) (l : list A) :
  (∀ x, x ∈ l → f x = Some (g x)) → omap f l = g <$> l.
Proof.
  induction l as [|x l IH]; intros Hf; simpl; [done|].
  rewrite (Hf x) by left. f_equal. apply IH. intros y Hy. apply Hf. by right.
Qed.

Lemma techniques_arr_eq st :
  Engine.techniques_arr (Engine.technique_info st)
  = entry_of st <$> Py.sorted (map_to_list (Engine.technique_info st)).*1.
Proof.
  unfold Engine.techniques_arr. apply omap_all_Some.
  intros tid Htid. rewrite elem_of_sorted in Htid.
  apply list_elem_of_fmap in Htid as ([tid' i] & -> & Hi). simpl.
  apply elem_of_map_to_list in Hi. rewrite Hi. simpl.
  rewrite technique_info_lookup in Hi. unfold entry_of, view.
  destruct (Engine.counts st !! tid') as [cnt|]; simplify_eq/=. done.
Qed.

Lemma techniques_arr_ids st :
  techniqueID <$> Engine.techniques_arr (Engine.technique_info st)
  = Py.sorted (map_to_list (Engine.technique_info st)).*1.
Proof.
  rewrite techniques_arr_eq, <- list_fmap_compose.
  rewrite <- (list_fmap_id (Py.sorted _)) at 2. done.
Qed.

Lemma techniques_arr_ascending (ti : gmap string Engine.info) :
  ascending (Py.sorted (map_to_list ti).*1).
Proof. apply sorted_ascending, NoDup_fst_map_to_list. Qed.

Lemma elem_of_techniques_arr st e :
  e ∈ Engine.techniques_arr (Engine.technique_info st)
  ↔ is_Some (Engine.counts st !! techniqueID e) ∧ e = entry_of st (techniqueID e).
Proof.
  rewrite techniques_arr_eq, list_elem_of_fmap. split.
  - intros (tid & -> & Htid). simpl. split; [|done].
    rewrite elem_of_sorted in Htid.
    apply list_elem_of_fmap in Htid as ([tid' i] & -> & Hi).
    apply elem_of_map_to_list in Hi. apply technique_info_is_Some. by exists i.
  - intros [[cnt Hc]%technique_info_is_Some He]. exists (techniqueID e). split; [done|].
    rewrite elem_of_sorted. apply list_elem_of_fmap. exists (techniqueID e, cnt). split; [done|].
    by apply elem_of_map_to_list.
Qed.

(** *** What a run that returns has written *)

Section runs.
Context `{Host}.

Lemma run_returns v root out_path layer_name w w' :
  run v root out_path layer_name w = (Returns (), w') →
  candidates v root ≠ []
  ∧ ∃ l, written w' = written w ++ [(out_path, l)]
         ∧ name l = layer_name
         ∧ techniques l = Engine.techniques_arr (Engine.technique_info (final v root)).
Proof.
  unfold final.
  destruct v; simpl; unfold GenerateLayers.main, NetworkLayer.main, emit;
    [destruct (GenerateLayers.iter_yaml_files root) as [|p ps] eqn:Hfiles
    |destruct (NetworkLayer.iter_yaml_files root) as [|p ps] eqn:Hfiles];
    try done;
    (destruct (writable out_path); [|done]);
    intros [= <-]; (split; [done|]); eexists; simpl; done.
Qed.

Lemma run_no_input v root out_path layer_name w :
  candidates v root = [] →
  run v root out_path layer_name w = (Raises (no_input v root), w).
Proof.
  destruct v; simpl; unfold GenerateLayers.main, NetworkLayer.main; by intros ->.
Qed.

End runs.

(** *** The two severity tables *)

Lemma chr_lower_not_upper c : Py.is_upper (Py.chr_lower c) = false.
Proof. by destruct c as [[] [] [] [] [] [] [] []]. Qed.

Lemma lower_head s c rest : Py.lower s = String c rest → Py.is_upper c = false.
Proof. destruct s as [|a s]; [done|]. intros [= <- _]. apply chr_lower_not_upper. Qed.

Lemma generate_layers_score_constant sev : GenerateLayers.severity_score sev = 50.
Proof.
  unfold GenerateLayers.severity_score, GenerateLayers.SEVERITY_TO_SCORE. simpl.
  destruct (Py.lower sev) as [|c rest] eqn:Hl; [done|].
  apply lower_head in Hl.
  rewrite !lookup_insert_ne, lookup_empty; [done|intros [= <- _]; done..].
Qed.

Lemma network_score_cases severity :
  NetworkLayer.severity_to_score severity
  = if bool_decide (Py.lower severity = "sev0") then 100
    else if bool_decide (Py.lower severity = "sev1") then 90
    else if bool_decide (Py.lower severity = "sev2") then 70
    else if bool_decide (Py.lower severity = "sev3") then 40
    else if bool_decide (Py.lower severity = "sev4") then 20
    else 50.
Proof.
  unfold NetworkLayer.severity_to_score, NetworkLayer.SEVERITY_TO_SCORE. simpl.
  repeat (rewrite lookup_insert; case_decide as Heq;
          [rewrite <- Heq, bool_decide_eq_true_2 by done; done
          |rewrite bool_decide_eq_false_2 by done; clear Heq]).
  by rewrite lookup_empty.
Qed.

Lemma score_of_tier v sev : score_of v sev ∈ tier_scores.
Proof.
  destruct v; simpl.
  - rewrite generate_layers_score_constant. unfold tier_scores. set_solver.
  - rewrite network_score_cases. unfold tier_scores.
    repeat case_bool_decide; set_solver.
Qed.

Lemma score_of_pos v sev : 0 < score_of v sev.
Proof.
  pose proof (score_of_tier v sev) as Hin. unfold tier_scores in Hin.
  repeat (apply elem_of_cons in Hin as [->|Hin]; [lia|]).
  by apply elem_of_nil in Hin.
Qed.

Lemma upper_digit c : Py.is_digit c = true → Py.chr_upper c = c.
Proof. by destruct c as [[] [] [] [] [] [] [] []]. Qed.

Lemma upper_T c : Py.chr_lower c = Py.chr_lower "T" → Py.chr_upper c = "T"%char.
Proof. by destruct c as [[] [] [] [] [] [] [] []]. Qed.

Lemma match_at_technique prev s n :
  Re.match_at TECHNIQUE_RE prev s = Some n →
  is_technique_id (Py.upper (Re.prefix_of_length n s)) = true.
Proof.
  unfold Re.match_at, TECHNIQUE_RE. cbn [Re.rmatch Re.Rep Re.Chr_i].
  intros Hm.
  repeat match type of Hm with
  | context [match ?s with EmptyString => _ | String _ _ => _ end] =>
      destruct s; try discriminate Hm
  | context [if ?b then _ else _] => destruct b eqn:?; try discriminate Hm
  | context [match ?o with Some _ => _ | None => _ end] =>
      destruct o eqn:?; try discriminate Hm
  end.
  all: injection Hm as <-; cbn [Re.prefix_of_length Py.upper Py.smap].
  all: repeat match goal with
       | H : bool_decide _ = true |- _ => apply bool_decide_eq_true_1 in H
       end; subst.
  all: rewrite upper_T by done.
  all: unfold is_technique_id.
  all: repeat match goal with
       | H : Py.is_digit ?c = true |- _ => rewrite (upper_digit c H), H; clear H
       end.
  all: done.
Qed.

Lemma findall_go_technique prev s skip m :
  m ∈ Re.findall_go TECHNIQUE_RE prev s skip →
  is_technique_id (Py.upper m) = true.
Proof.
  revert prev skip. induction s as [|c s IH]; intros prev skip; simpl.
  - intros []%elem_of_nil.
  - destruct skip as [|k]; [|by apply IH].
    destruct (Re.match_at TECHNIQUE_RE prev (String c s)) as [[|n]|] eqn:Hm;
      [by apply IH| |by apply IH].
    intros [->|Hin]%elem_of_cons; [|by eapply IH].
    by apply match_at_technique in Hm.
Qed.

Lemma findall_technique s m :
  m ∈ Re.findall TECHNIQUE_RE s → is_technique_id (Py.upper m) = true.
Proof. apply findall_go_technique. Qed.

Lemma elem_of_normalize_list items acc t :
  t ∈ foldl (λ techs item,
               match item with
               | YStr s => techs ++ (Py.upper <$> Re.findall TECHNIQUE_RE s)
               | _ => techs
               end) acc items
  ↔ t ∈ acc ∨ ids_in (strings_of (YList items)) t.
Proof.
  unfold ids_in. revert acc. induction items as [|item items IH]; intros acc; simpl.
  - split; [by left|]. intros [?|(s & m & []%elem_of_nil & _)]; done.
  - rewrite IH. destruct item; simpl;
      try (split; (intros [?|?]; [by left|by right])).
    rewrite elem_of_app, list_elem_of_fmap. split.
    + intros [[?|(m & -> & Hm)]|(s' & m & Hs & Hm & ->)]; [by left|right..].
      * exists s, m. split; [left|done].
      * exists s', m. split; [by right|done].
    + intros [?|(s' & m & [->|Hs]%elem_of_cons & Hm & ->)]; [by left; left|..].
      * left; right. by exists m.
      * right. by exists s', m.
Qed.

Lemma elem_of_normalize value t :
  t ∈ Extract.normalize_techniques value ↔ ids_in (strings_of value) t.
Proof.
  unfold Extract.normalize_techniques. rewrite elem_of_sorted_set.
  destruct value; try (unfold ids_in; simpl; split;
    [intros []%elem_of_nil|intros (s & m & []%elem_of_nil & _)]).
  - unfold ids_in. simpl. rewrite list_elem_of_fmap. split.
    + intros (m & -> & Hm). exists s, m. split; [left|done].
    + intros (s' & m & ->%list_elem_of_singleton & Hm & ->). by exists m.
  - rewrite elem_of_normalize_list. split; [intros [[]%elem_of_nil|?]; done|by right].
Qed.

Lemma elem_of_scan_text raw t :
  t ∈ Extract.scan_text raw ↔ ids_in [raw] t.
Proof.
  unfold Extract.scan_text, ids_in. rewrite elem_of_sorted_set, list_elem_of_fmap. split.
  - intros (m & -> & Hm). exists raw, m. split; [left|done].
  - intros (s' & m & ->%list_elem_of_singleton & Hm & ->). by exists m.
Qed.

Lemma ids_in_technique texts t : ids_in texts t → is_technique_id t = true.
Proof. intros (s & m & _ & Hm & ->). by eapply findall_technique. Qed.

Lemma get_techniques_cases d raw :
  Extract.get_techniques d raw
  = match d ≫= (λ e, Extract.dict_get e "MitreTechniques") with
    | Some value =>
        match Extract.normalize_techniques value with
        | [] => Extract.scan_text raw
        | techs => techs
        end
    | None => Extract.scan_text raw
    end.
Proof.
  unfold Extract.get_techniques, Extract.TECHNIQUE_KEYS.
  destruct d as [[|kv e]|]; [done| |done].
  cbn [Extract.truthy Extract.structured_techniques mbind option_bind].
  change (default [] (Some (kv :: e))) with (kv :: e).
  destruct (Extract.dict_get (kv :: e) "MitreTechniques") as [value|]; [|done].
  by destruct (Extract.normalize_techniques value).
Qed.

(** *** Strings *)

Lemma append_cons c s t : String c s +:+ t = String c (s +:+ t).
Proof. reflexivity. Qed.

Lemma append_assoc s1 s2 s3 : (s1 +:+ s2) +:+ s3 = s1 +:+ s2 +:+ s3.
Proof. induction s1 as [|c s1 IH]; [done|]. by rewrite !append_cons, IH. Qed.

Lemma rev_app_acc s acc1 acc2 :
  String.rev_app s (acc1 +:+ acc2) = String.rev_app s acc1 +:+ acc2.
Proof.
  revert acc1. induction s as [|c s IH]; intros acc1; [done|].
  cbn [String.rev_app]. by rewrite <- IH.
Qed.

Lemma rev_cons c s : String.rev (String c s) = String.rev s +:+ String c "".
Proof. unfold String.rev. cbn [String.rev_app]. by rewrite <- rev_app_acc. Qed.

Lemma rev_app_append s t acc :
  String.rev_app (s +:+ t) acc = String.rev_app t (String.rev_app s acc).
Proof.
  revert acc. induction s as [|c s IH]; intros acc; [done|].
  rewrite append_cons. cbn [String.rev_app]. apply IH.
Qed.

Lemma rev_involutive s : String.rev (String.rev s) = s.
Proof.
  induction s as [|c s IH]; [done|].
  rewrite rev_cons. unfold String.rev at 1. rewrite rev_app_append.
  cbn [String.rev_app]. fold (String.rev (String.rev s)). by rewrite IH.
Qed.

Lemma endswith_sep a :
  Py.endswith a "/" = true → ∃ a', a = a' +:+ "/".
Proof.
  unfold Py.endswith. destruct (String.rev a) as [|c r] eqn:Hr; [done|].
  cbn. intros [Hc%bool_decide_eq_true_1 _]%andb_true_iff. subst c.
  exists (String.rev r). rewrite <- (rev_involutive a), Hr. apply rev_cons.
Qed.

Lemma split_nonempty sep s : Py.split sep s ≠ [].
Proof.
  destruct s as [|c s]; [done|]. cbn.
  case_bool_decide; [done|]. by destruct (Py.split sep s).
Qed.

Lemma split_app_sep sep a b :
  Py.split sep (a +:+ String sep b) = Py.split sep a ++ Py.split sep b.
Proof.
  induction a as [|c a IH].
  - change ("" +:+ String sep b) with (String sep b). cbn [Py.split].
    by rewrite bool_decide_eq_true_2.
  - rewrite append_cons. cbn [Py.split]. rewrite IH. case_bool_decide; [done|].
    pose proof (split_nonempty sep a). by destruct (Py.split sep a).
Qed.

Lemma split_no_sep n : no_sep n = true → Py.split OsPath.sep n = [n].
Proof.
  induction n as [|c n IH]; [done|]. cbn.
  intros [Hc Hn]%andb_true_iff. apply bool_decide_eq_true_1 in Hc.
  rewrite bool_decide_eq_false_2 by done. by rewrite IH.
Qed.

(** *** Path components *)

Lemma components_app_sep a b :
  OsPath.components (a +:+ String OsPath.sep b)
  = OsPath.components a ++ OsPath.components b.
Proof. unfold OsPath.components. by rewrite split_app_sep, filter_app. Qed.

Lemma components_valid n : valid_name n = true → OsPath.components n = [n].
Proof.
  intros [Hne Hn]%andb_true_iff. apply bool_decide_eq_true_1 in Hne.
  unfold OsPath.components. rewrite split_no_sep by done.
  rewrite filter_cons_True by done. done.
Qed.

Lemma valid_not_absolute n : valid_name n = true → Py.startswith n "/" = false.
Proof.
  intros [Hne Hn]%andb_true_iff. destruct n as [|c n]; [done|].
  cbn in *. apply andb_true_iff in Hn as [Hc _].
  apply bool_decide_eq_true_1 in Hc.
  apply andb_false_iff. left. apply bool_decide_eq_false_2. intros <-. done.
Qed.

Lemma components_join a n :
  valid_name n = true →
  OsPath.components (OsPath.join a n) = OsPath.components a ++ [n].
Proof.
  intros Hn. unfold OsPath.join. rewrite valid_not_absolute by done.
  destruct (bool_decide (a = "")) eqn:Ha; simpl.
  - apply bool_decide_eq_true_1 in Ha as ->. by apply components_valid.
  - destruct (Py.endswith a "/") eqn:He.
    + apply endswith_sep in He as [a' ->]. rewrite append_assoc.
      change ("/" +:+ n) with (String OsPath.sep n).
      change "/" with (String OsPath.sep "").
      rewrite !components_app_sep, (components_valid n) by done.
      change (OsPath.components "") with (@nil string). by rewrite app_nil_r.
    + change ("/" +:+ n) with (String OsPath.sep n).
      by rewrite components_app_sep, (components_valid n).
Qed.

Lemma components_path_below root segs :
  Forall (λ n, valid_name n = true) segs →
  OsPath.components (path_below root segs) = OsPath.components root ++ segs.
Proof.
  intros Hsegs. revert root. induction Hsegs as [|n segs Hn _ IH]; intros root.
  - by rewrite app_nil_r.
  - change (path_below root (n :: segs)) with (path_below (OsPath.join root n) segs).
    rewrite IH, components_join by done. by rewrite <- app_assoc.
Qed.

Lemma commonprefix_app l1 l2 : OsPath.commonprefix l1 (l1 ++ l2) = l1.
Proof.
  induction l1 as [|x l1 IH]; cbn; [by destruct l2|].
  by rewrite bool_decide_eq_true_2, IH.
Qed.

Lemma relpath_path_below root segs :
  Forall (λ n, valid_name n = true) segs →
  OsPath.relpath (path_below root segs) root
  = match segs with [] => "." | _ => Py.join "/" segs end.
Proof.
  intros Hsegs. unfold OsPath.relpath.
  rewrite components_path_below, commonprefix_app by done.
  rewrite Nat.sub_diag, drop_app_length. simpl. done.
Qed.

Lemma split_join_head n segs :
  valid_name n = true →
  ∃ rest, Py.split OsPath.sep (Py.join "/" (n :: segs)) = n :: rest.
Proof.
  intros [_ Hn]%andb_true_iff. destruct segs as [|m segs].
  - exists []. by apply split_no_sep.
  - cbn [Py.join]. change ("/" +:+ ?x) with (String OsPath.sep x).
    rewrite split_app_sep, split_no_sep by done. by eexists.
Qed.

(** *** The walk *)

Lemma elem_of_flat_map {A B} (f : A → list B) (l : list A) (x : B) :
  x ∈ flat_map f l ↔ ∃ y, y ∈ l ∧ x ∈ f y.
Proof.
  induction l as [|a l IH]; simpl.
  - split; [intros []%elem_of_nil|intros (y & []%elem_of_nil & _)].
  - rewrite elem_of_app, IH. split.
    + intros [?|(y & ? & ?)]; [exists a; split; [left|done]|exists y; split; [by right|done]].
    + intros (y & [->|?]%elem_of_cons & ?); [by left|right; by exists y].
Qed.

Lemma dir_ind' (P : dir → Prop) :
  (∀ subdirs files, Forall (λ x, P x.2) subdirs → P (Dir subdirs files)) →
  ∀ d, P d.
Proof.
  intros Hstep. fix IH 1. intros [subdirs files]. apply Hstep.
  induction subdirs as [|[n sub] rest IHrest]; constructor; [apply IH|apply IHrest].
Qed.

Lemma forallb_Forall {A} (f : A → bool) (l : list A) :
  forallb f l = true ↔ Forall (λ x, f x = true) l.
Proof.
  induction l as [|x l IH]; simpl; [by split|].
  rewrite andb_true_iff, IH, Forall_cons. done.
Qed.

Lemma walk_inv keep d : ∀ dp dirpath dirnames filenames,
  valid_tree d = true →
  (dirpath, dirnames, filenames) ∈ walk keep dp d →
  ∃ segs, dirpath = path_below dp segs ∧ all_valid segs ∧ all_valid filenames
          ∧ match segs with [] => True | s :: _ => s ∈ subdir_names d end.
Proof.
  induction d as [subdirs files IH] using dir_ind'.
  intros dp dirpath dirnames filenames Hvalid Hin.
  cbn [valid_tree] in Hvalid. apply andb_true_iff in Hvalid as [Hfiles Hsubs].
  apply forallb_Forall in Hfiles. rewrite forallb_Forall in Hsubs.
  cbn [walk] in Hin. apply elem_of_cons in Hin as [Heq|Hin].
  - injection Heq as -> _ ->. exists []. split_and!; [done|constructor|done|done].
  - apply elem_of_flat_map in Hin as ([n sub] & Hsub & Hin).
    rewrite Forall_forall in IH, Hsubs.
    specialize (Hsubs _ Hsub). simpl in Hsubs.
    apply andb_true_iff in Hsubs as [Hn Hsubvalid].
    destruct (keep n); [|by apply elem_of_nil in Hin].
    destruct (IH _ Hsub _ _ _ _ Hsubvalid Hin) as (segs & -> & Hsegs & Hfns & _).
    exists (n :: segs). split_and!; [done|by constructor|done|].
    simpl. apply list_elem_of_fmap. by exists (n, sub).
Qed.

(** *** The network enumerator *)

Lemma dot_rejected :
  bool_decide (NetworkLayer.platform_of "." ∉ NetworkLayer.allowed) = true.
Proof. by vm_compute. Qed.

Section network.
Context `{Host}.

Lemma visit_dir_root root filenames :
  NetworkLayer.visit_dir root root filenames = [].
Proof.
  unfold NetworkLayer.visit_dir.
  change root with (path_below root []) at 1.
  rewrite (relpath_path_below root []) by constructor.
  change (Py.split OsPath.sep ".") with ["."]. cbv beta iota.
  by rewrite dot_rejected.
Qed.

Lemma visit_dir_below root s segs filenames p :
  all_valid (s :: segs) →
  p ∈ NetworkLayer.visit_dir root (path_below root (s :: segs)) filenames →
  NetworkLayer.platform_of s ∈ NetworkLayer.allowed
  ∧ ∃ fn, fn ∈ filenames ∧ is_yaml_name fn = true
          ∧ p = OsPath.join (path_below root (s :: segs)) fn.
Proof.
  intros Hvalid. unfold NetworkLayer.visit_dir.
  rewrite relpath_path_below by done.
  destruct (split_join_head s segs) as [rest ->]; [by inversion Hvalid|].
  destruct (bool_decide (NetworkLayer.platform_of s ∉ NetworkLayer.allowed)) eqn:Hp;
    [by intros []%elem_of_nil|].
  apply bool_decide_eq_false_1 in Hp.
  intros (fn & -> & [Hfn ?]%list_elem_of_filter)%list_elem_of_fmap.
  split; [|by exists fn].
  by destruct (decide (NetworkLayer.platform_of s ∈ NetworkLayer.allowed)).
Qed.

End network.

Section network_candidates.
Context `{Host}.

Lemma network_candidate_inv root p :
  valid_tree (tree_at (abspath root)) = true →
  p ∈ NetworkLayer.iter_yaml_files root →
  ∃ platform rest fn,
    p = OsPath.join (path_below (abspath root) (platform :: rest)) fn
    ∧ all_valid (platform :: rest) ∧ valid_name fn = true
    ∧ NetworkLayer.platform_of platform ∈ NetworkLayer.allowed
    ∧ platform ∈ subdir_names (tree_at (abspath root))
    ∧ is_yaml_name fn = true.
Proof.
  intros Hvalid. unfold NetworkLayer.iter_yaml_files.
  rewrite elem_of_sorted, elem_of_flat_map.
  intros ([[dirpath dirnames] filenames] & Hwalk & Hp).
  destruct (walk_inv _ _ _ _ _ _ Hvalid Hwalk) as (segs & -> & Hsegs & Hfns & Hsub).
  destruct segs as [|s segs].
  - change (path_below (abspath root) []) with (abspath root) in Hp.
    rewrite visit_dir_root in Hp. by apply elem_of_nil in Hp.
  - apply visit_dir_below in Hp as (Hallowed & fn & Hfn & Hyaml & ->); [|exact Hsegs].
    exists s, segs, fn.
    split; [reflexivity|]. split; [exact Hsegs|].
    split; [|split; [exact Hallowed|split; [exact Hsub|exact Hyaml]]].
    unfold all_valid in Hfns. rewrite Forall_forall in Hfns. by apply Hfns.
Qed.

Lemma components_candidate root platform rest fn :
  all_valid (platform :: rest) → valid_name fn = true →
  OsPath.components (OsPath.join (path_below root (platform :: rest)) fn)
  = OsPath.components root ++ platform :: rest ++ [fn].
Proof.
  intros Hsegs Hfn.
  rewrite components_join, components_path_below by done.
  by rewrite <- app_assoc.
Qed.

End network_candidates.

Section claims_network.
Context `{Host}.

(** C10. In restricted mode a rule file that lies directly in the root
    directory is never a candidate: the relative directory of the root is
    ["."], the normalised first segment ["."] is not an allowed platform,
    and [root/fn] is not among the files the enumerator returns. *)
Theorem root_files_are_not_candidates root fn :
  valid_tree (tree_at (abspath root)) = true →
  valid_name fn = true →
  OsPath.relpath (abspath root) (abspath root) = "."
  ∧ (NetworkLayer.platform_of "." ∉ NetworkLayer.allowed)
  ∧ (∀ filenames, NetworkLayer.visit_dir (abspath root) (abspath root) filenames = [])
  ∧ OsPath.join (abspath root) fn ∉ NetworkLayer.iter_yaml_files root.
Proof.
  intros Hvalid Hfn. split; [|split; [|split]].
  - apply (relpath_path_below (abspath root) []). constructor.
  - apply (bool_decide_unpack _). rewrite dot_rejected. exact I.
  - intros filenames. apply visit_dir_root.
  - intros Hin.
    apply network_candidate_inv in Hin as (s & rest & fn' & Heq & Hsegs & Hfn' & _);
      [|exact Hvalid].
    apply (f_equal OsPath.components) in Heq.
    rewrite components_candidate, components_join in Heq by assumption.
    apply app_inv_head in Heq. apply (f_equal length) in Heq.
    simpl in Heq. rewrite length_app in Heq. simpl in Heq. lia.
Qed.

(** C2. In restricted mode every file the enumerator returns lies below a
    directory of the root whose normalised name is in the allow-list: its
    first path segment below the root is that directory. The layer is made
    from these files only: each technique entry has contributing files,
    all of them candidates, and its examples are the labels of the first
    five of them. *)
Theorem network_only_allowed_platforms root out_path layer_name w w' :
  valid_tree (tree_at (abspath root)) = true →
  NetworkLayer.main root out_path layer_name w = (Returns (), w') →
  (∀ p, p ∈ NetworkLayer.iter_yaml_files root → under_allowed_platform root p)
  ∧ ∃ l, written w' = written w ++ [(out_path, l)]
         ∧ ∀ e, e ∈ techniques l →
             let ps := contributing (techniqueID e) (NetworkLayer.iter_yaml_files root) in
             ps ≠ []
             ∧ (∀ p, p ∈ ps → under_allowed_platform root p ∧ techniqueID e ∈ techs_of p)
             ∧ ∃ sev, comment e = Engine.make_comment (Z.of_nat (length ps)) sev
                                    (take 5 (label_of <$> ps)).
Proof.
  intros Hvalid Hrun.
  assert (∀ p, p ∈ NetworkLayer.iter_yaml_files root → under_allowed_platform root p)
    as Hunder.
  { intros p Hp.
    apply network_candidate_inv in Hp
      as (s & rest & fn & Heq & Hsegs & Hfn & Hallowed & Hsub & Hyaml); [|exact Hvalid].
    exists s, rest, fn. split; [exact Heq|]. split; [exact Hsegs|].
    split; [exact Hfn|]. split.
    { rewrite Heq. apply components_candidate; assumption. }
    split; [exact Hallowed|]. split; [exact Hsub|exact Hyaml]. }
  split; [exact Hunder|].
  apply (run_returns NetworkOnly) in Hrun as (_ & l & Hw & _ & Hl).
  exists l. split; [exact Hw|]. intros e He ps. rewrite Hl in He.
  apply elem_of_techniques_arr in He as [Hcount He].
  apply counts_aggregate in Hcount. fold ps in Hcount.
  split; [exact Hcount|]. split.
  - intros p [Htid Hp]%list_elem_of_filter. split; [by apply Hunder|exact Htid].
  - destruct (summary_closed (score_of NetworkOnly) (candidates NetworkOnly root)
                (techniqueID e) (score_of_pos NetworkOnly)) as (Hc & Hex & _ & _).
    exists (s_sev (view (final NetworkOnly root) (techniqueID e))).
    rewrite He. unfold entry_of. cbn [comment]. unfold final.
    rewrite Hc, Hex. reflexivity.
Qed.

End claims_network.

(** Files outside the allow-list, and files of the root itself, are not
    below an allowed platform. *)
Example outside_files_are_not_under_an_allowed_platform :
  ¬ under_allowed_platform (H:=Demo.host) "/r" "/r/Okta/ruleB/b.yaml"
  ∧ ¬ under_allowed_platform (H:=Demo.host) "/r" "/r/top.yml".
Proof.
  split.
  - intros (platform & rest & fn & _ & _ & _ & Hcomp & Hallowed & _).
    vm_compute in Hcomp. injection Hcomp as <- _.
    apply (bool_decide_pack _) in Hallowed. vm_compute in Hallowed. exact Hallowed.
  - intros (platform & rest & fn & _ & _ & _ & Hcomp & _).
    vm_compute in Hcomp. injection Hcomp as _ Hrest.
    destruct rest; discriminate Hrest.
Qed.


Lemma foldl_visit_counters sc sev label techs st :
  Engine.parsed_files (foldl (Engine.visit sc sev label) st techs) = Engine.parsed_files st
  ∧ Engine.skipped_no_technique (foldl (Engine.visit sc sev label) st techs)
    = Engine.skipped_no_technique st.
Proof.
  revert st. induction techs as [|t techs IH]; intros st; [done|].
  cbn [foldl]. destruct (IH (Engine.visit sc sev label st t)) as [-> ->].
  visit_cases st t; done.
Qed.

(** ** The claims on both scripts *)

Section claims.
Context `{Host}.


(** C4. In the loop, the best score and the best severity of a technique
    are written if and only if the score of the current file is strictly
    greater than the best recorded for it; nothing else is touched. Over a
    whole run the severity kept is that of the first contributing file
    that reaches the maximum: on a tie the earlier file wins. *)
Theorem best_updates_only_on_strictly_greater :
  (∀ sc sev label st tid,
     let best := s_best (view st tid) in
     let st' := Engine.visit sc sev label st tid in
     Engine.max_score st'
       = <[tid := if bool_decide (sc > best) then sc else best]> (Engine.max_score st)
     ∧ Engine.max_sev st'
       = (if bool_decide (sc > best) then <[tid := sev]> (Engine.max_sev st)
          else Engine.max_sev st)
     ∧ ∀ tid', tid' ≠ tid → view st' tid' = view st tid')
  ∧ (∀ v files tid,
       let ps := contributing tid files in
       let s := view (Engine.aggregate (score_of v) files) tid in
       s_best s = max_of ((λ p, score_of v (sev_of p)) <$> ps)
       ∧ s_sev s = from_option sev_of "unknown"
                     (find (λ p, bool_decide (score_of v (sev_of p) = s_best s)) ps)).
Proof.
  split.
  - intros sc sev label st tid best st'. split_and!.
    + subst best st'. unfold view. cbn [s_best]. visit_cases st tid;
        rewrite ?insert_insert_eq; try done; try lia.
      all: symmetry; by apply insert_id.
    + subst best st'. unfold view. cbn [s_best]. visit_cases st tid; try done; try lia.
    + intros tid' Hne. by apply view_visit_other.
  - intros v files tid ps s.
    destruct (summary_closed (score_of v) files tid (score_of_pos v))
      as (_ & _ & Hbest & Hsev).
    fold ps in Hbest, Hsev. fold s in Hbest, Hsev.
    split; [exact Hbest|]. rewrite Hsev, Hbest. reflexivity.
Qed.


(** C6. The techniques of the layer a run writes are strictly ascending by
    technique id. *)
Theorem techniques_strictly_ascending v root out_path layer_name w w' :
  run v root out_path layer_name w = (Returns (), w') →
  ∃ l, written w' = written w ++ [(out_path, l)]
       ∧ ascending (techniqueID <$> techniques l).
Proof.
  intros Hrun. apply run_returns in Hrun as (_ & l & Hw & _ & Hl).
  exists l. split; [exact Hw|]. rewrite Hl, techniques_arr_ids.
  apply techniques_arr_ascending.
Qed.

(** C7. When the enumeration of the root yields no candidate file, the run
    ends at once with the fatal exit of the script, and nothing is written
    or printed. *)
Theorem no_input_is_fatal v root out_path layer_name w :
  candidates v root = [] →
  run v root out_path layer_name w = (Raises (no_input v root), w).
Proof. apply run_no_input. Qed.

(** C8. A file whose content does not parse, or parses to something that
    is not a mapping, is not an error: its severity is ["unknown"], its
    techniques are those of the scan of the raw text, it is counted as
    skipped when the scan finds none, and contributes like any other file
    when it finds some. *)
Theorem malformed_rule_falls_back v st path :
  loads_mapping (safe_load (read_text path)) = false →
  let raw := read_text path in
  let st' := Engine.process_file (score_of v) st path in
  Extract.read_yaml path = (None, raw)
  ∧ sev_of path = "unknown"
  ∧ techs_of path = Extract.scan_text raw
  ∧ score_of v (sev_of path) = 50
  ∧ (∀ tid, view st' tid
            = if bool_decide (tid ∈ Extract.scan_text raw)
              then contribute 50 "unknown" (label_of path) (view st tid)
              else view st tid)
  ∧ (if bool_decide (Extract.scan_text raw = [])
     then st' = Engine.Agg (Engine.max_score st) (Engine.max_sev st) (Engine.counts st)
                  (Engine.examples st) (Engine.parsed_files st)
                  (Engine.skipped_no_technique st + 1)
     else Engine.parsed_files st' = Engine.parsed_files st + 1
          ∧ Engine.skipped_no_technique st' = Engine.skipped_no_technique st).
Proof.
  intros Hload raw st'.
  assert (Extract.read_yaml path = (None, raw)) as Hread.
  { unfold Extract.read_yaml. subst raw.
    destruct (safe_load (read_text path)) as [[]|]; done. }
  assert (sev_of path = "unknown") as Hsev.
  { unfold sev_of, Engine.facts_of. by rewrite Hread. }
  assert (techs_of path = Extract.scan_text raw) as Htechs.
  { unfold techs_of, Engine.facts_of. by rewrite Hread. }
  assert (score_of v "unknown" = 50) as Hscore by (by destruct v; vm_compute).
  split_and!; try done.
  - by rewrite Hsev.
  - intros tid. subst st'. rewrite view_process_file, Htechs, Hsev, Hscore. done.
  - subst st'. unfold Engine.process_file. rewrite Hread.
    change (Extract.get_techniques None raw) with (Extract.scan_text raw).
    case_bool_decide as Hempty.
    + by rewrite Hempty.
    + destruct (Extract.scan_text raw) as [|t ts]; [done|].
      match goal with
      | |- context [foldl ?f ?st0 ?l] =>
          destruct (foldl_visit_counters
                      (score_of v (Extract.get_severity None))
                      (Extract.get_severity None)
                      (OsPath.basename (OsPath.dirname path) +:+ "/" +:+ OsPath.basename path)
                      l st0) as [-> ->]
      end. done.
Qed.

(** C9. Every technique entry of the layer a run writes has a score among
    20, 40, 50, 70, 90 and 100, hence strictly positive: the initial 0 of
    the best score never reaches the output. *)
Theorem output_scores_are_tier_scores v root out_path layer_name w w' :
  run v root out_path layer_name w = (Returns (), w') →
  ∃ l, written w' = written w ++ [(out_path, l)]
       ∧ Forall (λ e, score e ∈ [20; 40; 50; 70; 90; 100] ∧ 0 < score e) (techniques l).
Proof.
  intros Hrun. apply run_returns in Hrun as (_ & l & Hw & _ & Hl).
  exists l. split; [exact Hw|]. apply Forall_forall. intros e He. rewrite Hl in He.
  apply elem_of_techniques_arr in He as [Hcount He].
  apply counts_aggregate in Hcount.
  destruct (summary_closed (score_of v) (candidates v root)
              (techniqueID e) (score_of_pos v)) as (_ & _ & Hbest & _).
  rewrite He. unfold entry_of. cbn [score]. unfold final. rewrite Hbest.
  destruct (foldr_max_attained 0
              ((λ p, score_of v (sev_of p)) <$> contributing (techniqueID e) (candidates v root)))
    as [H0|Hin].
  - exfalso. destruct (contributing (techniqueID e) (candidates v root)) as [|p ps];
      [done|]. simpl in H0. pose proof (score_of_pos v (sev_of p)). lia.
  - unfold max_of. apply list_elem_of_fmap in Hin as (p & -> & _).
    split; [|apply score_of_pos].
    pose proof (score_of_tier v (sev_of p)) as Ht. unfold tier_scores in Ht.
    set_solver.
Qed.

End claims.

(** ** The claims on the demonstration host *)

(** C1. [generate_layers.py] looks [sev.lower()] up in a table whose keys
    are capitalised, so no label is ever found: a file rated [Sev1] gets
    the default 50 and not 90, where [network_layer.py] gives 90. Here on
    the one-file tree of scenario 1. *)
Theorem generate_layers_ignores_the_tier_map :
  GenerateLayers.severity_score "Sev1" = 50
  ∧ NetworkLayer.severity_to_score "Sev1" = 90
  ∧ sev_of (H:=Demo.host) "/one/rules/r1/rule.yml" = "sev1"
  ∧ ∃ l, written (GenerateLayers.main (H:=Demo.host) "/one" "out.json" "All" (World [] [])).2
         = [("out.json", l)]
         ∧ (λ e, (techniqueID e, score e)) <$> techniques l
           = [("T1059", 50); ("T1110.001", 50)].
Proof.
  split_and!; [by vm_compute..|].
  eexists. split; by vm_compute.
Qed.


Lemma root_files_are_not_candidates_witness :
  valid_tree (tree_at (Host:=Demo.host) (abspath (Host:=Demo.host) "/r")) = true
  ∧ valid_name "top.yml" = true
  ∧ OsPath.join (abspath (Host:=Demo.host) "/r") "top.yml"
    ∉ NetworkLayer.iter_yaml_files (H:=Demo.host) "/r".
Proof.
  split; [by vm_compute|]. split; [by vm_compute|].
  apply (root_files_are_not_candidates (H:=Demo.host) "/r" "top.yml");
    by vm_compute.
Defined.

Lemma network_only_allowed_platforms_witness :
  valid_tree (tree_at (Host:=Demo.host) (abspath (Host:=Demo.host) "/r")) = true
  ∧ (∀ p, p ∈ NetworkLayer.iter_yaml_files (H:=Demo.host) "/r" →
          under_allowed_platform (H:=Demo.host) "/r" p).
Proof.
  split; [by vm_compute|].
  apply (network_only_allowed_platforms (H:=Demo.host) "/r" "out.json" "Net" (World [] [])
           (NetworkLayer.main (H:=Demo.host) "/r" "out.json" "Net" (World [] [])).2);
    by vm_compute.
Defined.


Lemma techniques_strictly_ascending_witness :
  ∃ l, written (run (H:=Demo.host) NetworkOnly "/r" "out.json" "Net" (World [] [])).2
       = written (World [] []) ++ [("out.json", l)]
       ∧ ascending (techniqueID <$> techniques l).
Proof.
  apply (techniques_strictly_ascending (H:=Demo.host) NetworkOnly "/r" "out.json" "Net").
  by vm_compute.
Defined.

Lemma no_input_is_fatal_witness :
  candidates (H:=Demo.host) NetworkOnly "/nowhere" = []
  ∧ run (H:=Demo.host) NetworkOnly "/nowhere" "out.json" "Net" (World [] ["kept"])
    = (Raises (SystemExit "No Network detection YAML files found."), World [] ["kept"]).
Proof.
  split; [by vm_compute|].
  apply (no_input_is_fatal (H:=Demo.host) NetworkOnly "/nowhere" "out.json" "Net").
  by vm_compute.
Defined.

Lemma malformed_rule_falls_back_witness :
  loads_mapping (safe_load (Host:=Demo.host) (read_text (Host:=Demo.host) "/r/Okta/free/T1003.yml"))
  = false
  ∧ Extract.read_yaml (H:=Demo.host) "/r/Okta/free/T1003.yml"
    = (None, "/r/Okta/free/T1003.yml")
  ∧ techs_of (H:=Demo.host) "/r/Okta/free/T1003.yml"
    = Extract.scan_text "/r/Okta/free/T1003.yml".
Proof.
  split; [by vm_compute|].
  destruct (malformed_rule_falls_back (H:=Demo.host) AllDetections Engine.agg_init
              "/r/Okta/free/T1003.yml") as (Hread & _ & Htechs & _).
  - by vm_compute.
  - split; [exact Hread|exact Htechs].
Defined.

Lemma output_scores_are_tier_scores_witness :
  ∃ l, written (run (H:=Demo.host) AllDetections "/r" "out.json" "All" (World [] [])).2
       = written (World [] []) ++ [("out.json", l)]
       ∧ Forall (λ e, score e ∈ [20; 40; 50; 70; 90; 100] ∧ 0 < score e) (techniques l).
Proof.
  apply (output_scores_are_tier_scores (H:=Demo.host) AllDetections "/r" "out.json" "All").
  by vm_compute.
Defined.

(** * Further properties of the code *)

Lemma find_first {A} (f : A → bool) (l : list A) :
  (∃ before x after,
     l = before ++ x :: after ∧ f x = true
     ∧ (∀ y, y ∈ before → f y = false) ∧ find f l = Some x)
  ∨ (∀ y, y ∈ l → f y = false).
Proof.
  induction l as [|a l IH].
  - right. intros y []%elem_of_nil.
  - destruct (f a) eqn:Hfa.
    + left. exists [], a, l. split_and!; [done|done| |by simpl; rewrite Hfa].
      intros y []%elem_of_nil.
    + destruct IH as [(before & x & after & -> & Hx & Hbefore & Hfind)|Hnone].
      * left. exists (a :: before), x, after. split_and!; [done|done| |].
        -- intros y [->|Hy]%elem_of_cons; [done|by apply Hbefore].
        -- simpl. by rewrite Hfa.
      * right. intros y [->|Hy]%elem_of_cons; [done|by apply Hnone].
Qed.

Section extras_runs.
Context `{Host}.

(** The layer a run writes, entry by entry. *)
Lemma run_entries v root out_path layer_name w w' :
  run v root out_path layer_name w = (Returns (), w') →
  ∃ l, written w' = written w ++ [(out_path, l)]
       ∧ ∀ e, e ∈ techniques l
              ↔ contributing (techniqueID e) (candidates v root) ≠ []
                ∧ e = entry_of (final v root) (techniqueID e).
Proof.
  intros Hrun. apply run_returns in Hrun as (_ & l & Hw & _ & Hl).
  exists l. split; [exact Hw|]. intros e. rewrite Hl, elem_of_techniques_arr.
  unfold final. by rewrite counts_aggregate.
Qed.

(** X1. In [network_layer.py] the score of an entry is the greatest score
    that the tier map gives to the severity of a contributing file. *)
Theorem network_score_is_max root out_path layer_name w w' :
  NetworkLayer.main root out_path layer_name w = (Returns (), w') →
  ∃ l, written w' = written w ++ [(out_path, l)]
       ∧ ∀ e, e ∈ techniques l →
           let ps := contributing (techniqueID e) (NetworkLayer.iter_yaml_files root) in
           score e = max_of ((λ p, NetworkLayer.severity_to_score (sev_of p)) <$> ps)
           ∧ (∃ p, p ∈ ps ∧ score e = NetworkLayer.severity_to_score (sev_of p))
           ∧ ∀ p, p ∈ ps → NetworkLayer.severity_to_score (sev_of p) ≤ score e.
Proof.
  intros Hrun. apply (run_entries NetworkOnly) in Hrun as (l & Hw & Hl).
  exists l. split; [exact Hw|]. intros e [Hne He]%Hl ps.
  destruct (summary_closed (score_of NetworkOnly) (candidates NetworkOnly root)
              (techniqueID e) (score_of_pos NetworkOnly)) as (_ & _ & Hbest & _).
  subst ps. simpl in Hne, Hbest.
  remember (contributing (techniqueID e) (NetworkLayer.iter_yaml_files root)) as ps.
  assert (score e = max_of ((λ p, NetworkLayer.severity_to_score (sev_of p)) <$> ps))
    as Hscore.
  { rewrite He. unfold entry_of. cbn [score]. exact Hbest. }
  split; [exact Hscore|]. rewrite Hscore. unfold max_of. split.
  - destruct (foldr_max_attained 0
                ((λ p, NetworkLayer.severity_to_score (sev_of p)) <$> ps)) as [H0|Hin].
    + exfalso. destruct ps as [|p ps']; [done|].
      simpl in H0. pose proof (score_of_pos NetworkOnly (sev_of p)) as Hp.
      simpl in Hp. lia.
    + apply list_elem_of_fmap in Hin as (p & Hp & Hin). by exists p.
  - intros p Hp.
    apply (foldr_max_ge 0 ((λ p, NetworkLayer.severity_to_score (sev_of p)) <$> ps)).
    apply list_elem_of_fmap. by exists p.
Qed.

(** X2. In [generate_layers.py] the lookup never finds a key, so every
    severity scores 50 and so does every entry of the layer. *)
Theorem generate_layers_scores_are_all_default root out_path layer_name w w' :
  GenerateLayers.main root out_path layer_name w = (Returns (), w') →
  (∀ sev, GenerateLayers.severity_score sev = 50)
  ∧ ∃ l, written w' = written w ++ [(out_path, l)]
         ∧ Forall (λ e, score e = 50) (techniques l).
Proof.
  intros Hrun. split; [apply generate_layers_score_constant|].
  apply (run_entries AllDetections) in Hrun as (l & Hw & Hl).
  exists l. split; [exact Hw|]. apply Forall_forall. intros e [Hne He]%Hl.
  destruct (summary_closed (score_of AllDetections) (candidates AllDetections root)
              (techniqueID e) (score_of_pos AllDetections)) as (_ & _ & Hbest & _).
  rewrite He. unfold entry_of. cbn [score]. unfold final. rewrite Hbest.
  destruct (contributing (techniqueID e) (candidates AllDetections root)) as [|p ps];
    [done|].
  unfold max_of. clear. simpl.
  rewrite generate_layers_score_constant.
  induction ps as [|q ps IH]; simpl; [done|].
  rewrite generate_layers_score_constant. lia.
Qed.

Lemma process_file_counters severity_score st p :
  let st' := Engine.process_file severity_score st p in
  Engine.parsed_files st'
  = Engine.parsed_files st + (if bool_decide (techs_of p = []) then 0 else 1)
  ∧ Engine.skipped_no_technique st'
    = Engine.skipped_no_technique st + (if bool_decide (techs_of p = []) then 1 else 0).
Proof.
  unfold Engine.process_file, techs_of, Engine.facts_of.
  destruct (Extract.read_yaml p) as [d raw]. cbn [Engine.f_techs].
  destruct (Extract.get_techniques d raw) as [|t ts].
  - rewrite bool_decide_eq_true_2 by done. simpl. lia.
  - rewrite bool_decide_eq_false_2 by done.
    match goal with
    | |- context [foldl (Engine.visit ?sc ?sev ?label) ?st0 ?l] =>
        destruct (foldl_visit_counters sc sev label l st0) as [Hp Hs]
    end.
    cbv zeta. rewrite Hp, Hs. simpl. lia.
Qed.

Lemma aggregate_counters severity_score files st :
  let st' := foldl (Engine.process_file severity_score) st files in
  Engine.parsed_files st'
  = Engine.parsed_files st + Z.of_nat (length (filter (λ p, techs_of p ≠ []) files))
  ∧ Engine.skipped_no_technique st'
    = Engine.skipped_no_technique st
      + Z.of_nat (length (filter (λ p, techs_of p = []) files)).
Proof.
  revert st. induction files as [|p files IH]; intros st.
  - simpl. lia.
  - cbn [foldl]. cbv zeta. destruct (IH (Engine.process_file severity_score st p)) as [-> ->].
    destruct (process_file_counters severity_score st p) as [-> ->].
    rewrite !filter_cons. case_bool_decide as Hp.
    + rewrite decide_False by (intros Hne; by apply Hne).
      rewrite decide_True by done. simpl length. lia.
    + rewrite decide_True by done. rewrite decide_False by done. simpl length. lia.
Qed.

Lemma aggregate_counts severity_score (files : list string) :
  let st := Engine.aggregate severity_score files in
  Engine.parsed_files st = Z.of_nat (length (filter (λ p, techs_of p ≠ []) files))
  ∧ Engine.skipped_no_technique st
    = Z.of_nat (length (filter (λ p, techs_of p = []) files))
  ∧ Engine.parsed_files st + Engine.skipped_no_technique st = Z.of_nat (length files).
Proof.
  destruct (aggregate_counters severity_score files Engine.agg_init) as [Hp Hs].
  cbv zeta in *. fold (Engine.aggregate severity_score files) in Hp, Hs.
  simpl in Hp, Hs. split; [exact Hp|]. split; [exact Hs|]. rewrite Hp, Hs.
  clear. induction files as [|p files IH]; [done|].
  rewrite !filter_cons. destruct (decide (techs_of p = [])) as [He|Hne].
  - rewrite decide_False by (intros Hn; by apply Hn). simpl length. lia.
  - rewrite decide_True by done. simpl length. lia.
Qed.

(** X3. Every candidate file is counted exactly once, as parsed when it
    yields a technique and as skipped when it yields none. *)
Theorem parsed_plus_skipped_is_total severity_score (files : list string) :
  let st := Engine.aggregate severity_score files in
  Engine.parsed_files st = Z.of_nat (length (filter (λ p, techs_of p ≠ []) files))
  ∧ Engine.skipped_no_technique st
    = Z.of_nat (length (filter (λ p, techs_of p = []) files))
  ∧ Engine.parsed_files st + Engine.skipped_no_technique st = Z.of_nat (length files).
Proof. apply aggregate_counts. Qed.

(** X4. The layer has an entry for a technique exactly when some candidate
    file flags it. *)
Theorem layer_covers_exactly_the_flagged_techniques v root out_path layer_name w w' :
  run v root out_path layer_name w = (Returns (), w') →
  ∃ l, written w' = written w ++ [(out_path, l)]
       ∧ ∀ tid, tid ∈ techniqueID <$> techniques l
                ↔ ∃ p, p ∈ candidates v root ∧ tid ∈ techs_of p.
Proof.
  intros Hrun. apply run_entries in Hrun as (l & Hw & Hl).
  exists l. split; [exact Hw|]. intros tid. rewrite list_elem_of_fmap. split.
  - intros (e & -> & [Hne _]%Hl).
    destruct (contributing (techniqueID e) (candidates v root)) as [|p ps] eqn:Hps;
      [done|].
    assert (p ∈ contributing (techniqueID e) (candidates v root)) as Hp
      by (rewrite Hps; left).
    apply list_elem_of_filter in Hp as [? ?]. by exists p.
  - intros (p & Hp & Htid). exists (entry_of (final v root) tid). split; [done|].
    apply Hl. cbn [entry_of techniqueID]. split; [|done].
    intros Hnil. assert (p ∈ contributing tid (candidates v root)) as Hin
      by (by apply list_elem_of_filter).
    rewrite Hnil in Hin. by apply elem_of_nil in Hin.
Qed.


(** X6. The [max_severity] of an entry is the severity of a contributing
    file, the first one whose score is the score of the entry. *)
Theorem max_severity_comes_from_a_file v root out_path layer_name w w' :
  run v root out_path layer_name w = (Returns (), w') →
  ∃ l, written w' = written w ++ [(out_path, l)]
       ∧ ∀ e, e ∈ techniques l →
           let ps := contributing (techniqueID e) (candidates v root) in
           ∃ before p after,
             ps = before ++ p :: after
             ∧ score_of v (sev_of p) = score e
             ∧ (∀ q, q ∈ before → score_of v (sev_of q) < score e)
             ∧ (∀ q, q ∈ after → score_of v (sev_of q) ≤ score e)
             ∧ metadata e = [("detections_count", Py.str_of_int (Z.of_nat (length ps)));
                             ("max_severity", sev_of p)].
Proof.
  intros Hrun. apply run_entries in Hrun as (l & Hw & Hl).
  exists l. split; [exact Hw|]. intros e [Hne He]%Hl ps.
  destruct (summary_closed (score_of v) (candidates v root)
              (techniqueID e) (score_of_pos v)) as (Hc & _ & Hbest & Hsev).
  fold ps in Hc, Hbest, Hsev.
  assert (score e = max_of ((λ p, score_of v (sev_of p)) <$> ps)) as Hscore.
  { rewrite He. unfold entry_of. cbn [score]. exact Hbest. }
  assert (∀ q, q ∈ ps → score_of v (sev_of q) ≤ score e) as Hle.
  { intros q Hq. rewrite Hscore.
    apply (foldr_max_ge 0 ((λ p, score_of v (sev_of p)) <$> ps)).
    apply list_elem_of_fmap. by exists q. }
  rewrite <- Hscore in Hsev.
  destruct (find_first (λ p, bool_decide (score_of v (sev_of p) = score e)) ps)
    as [(before & p & after & Hps & Hp & Hbefore & Hfind)|Hnone].
  - exists before, p, after. apply bool_decide_eq_true_1 in Hp.
    split; [exact Hps|]. split; [exact Hp|]. split; [|split].
    + intros q Hq. specialize (Hbefore q Hq). apply bool_decide_eq_false_1 in Hbefore.
      assert (q ∈ ps) as Hqps by (rewrite Hps, elem_of_app; by left).
      specialize (Hle q Hqps). lia.
    + intros q Hq. apply Hle. rewrite Hps, elem_of_app. right. by right.
    + rewrite He. unfold entry_of. cbn [metadata]. unfold final.
      rewrite Hc, Hsev, Hfind. done.
  - exfalso.
    destruct (foldr_max_attained 0 ((λ p, score_of v (sev_of p)) <$> ps)) as [H0|Hin].
    + subst ps. destruct (contributing _ _) as [|p ps']; [done|].
      simpl in H0. pose proof (score_of_pos v (sev_of p)). lia.
    + fold (max_of ((λ p, score_of v (sev_of p)) <$> ps)) in Hin.
      rewrite <- Hscore in Hin. apply list_elem_of_fmap in Hin as (p & Hp & Hin).
      specialize (Hnone p Hin). apply bool_decide_eq_false_1 in Hnone. lia.
Qed.

End extras_runs.

Lemma chr_lower_idemp c : Py.chr_lower (Py.chr_lower c) = Py.chr_lower c.
Proof. by destruct c as [[] [] [] [] [] [] [] []]. Qed.

Lemma lower_idemp s : Py.lower (Py.lower s) = Py.lower s.
Proof.
  induction s as [|c s IH]; [done|].
  unfold Py.lower in *. cbn [Py.smap]. by rewrite chr_lower_idemp, IH.
Qed.

Lemma lower_nonempty s : s ≠ "" → Py.lower s ≠ "".
Proof. by destruct s. Qed.

Lemma get_first_str_Some d keys s :
  Extract.get_first_str d keys = Some s →
  s ≠ "" ∧ ∃ k v, k ∈ keys ∧ Extract.dict_get d k = Some (YStr v) ∧ s = Py.strip v.
Proof.
  induction keys as [|k keys IH]; [done|]. cbn [Extract.get_first_str].
  assert (Extract.get_first_str d keys = Some s →
          s ≠ "" ∧ ∃ k' v, k' ∈ k :: keys ∧ Extract.dict_get d k' = Some (YStr v)
                           ∧ s = Py.strip v) as IH'.
  { intros (? & k' & v & ? & ? & ?)%IH. split; [done|]. exists k', v.
    split; [by right|done]. }
  destruct (Extract.dict_get d k) as [[]|] eqn:Hget; try exact IH'.
  case_bool_decide as Hs; [|exact IH'].
  intros [= <-]. split; [done|]. eexists k, _. split; [left|done].
Qed.

(** X7. The severity label of a file is never empty and is in lower case;
    it is ["unknown"] or the stripped value of one of the two severity keys,
    and a usable [Severity] takes precedence over [severity]. *)
Theorem severity_label_shape (d : option pydict) :
  Extract.get_severity d ≠ ""
  ∧ Py.lower (Extract.get_severity d) = Extract.get_severity d
  ∧ (Extract.get_severity d = "unknown"
     ∨ ∃ e k v, d = Some e ∧ k ∈ Extract.SEVERITY_KEYS
                ∧ Extract.dict_get e k = Some (YStr v) ∧ Py.strip v ≠ ""
                ∧ Extract.get_severity d = Py.lower (Py.strip v))
  ∧ (∀ e v, d = Some e → Extract.dict_get e "Severity" = Some (YStr v) →
            Py.strip v ≠ "" → Extract.get_severity d = Py.lower (Py.strip v))
  ∧ (∀ e, d = Some e → Extract.dict_get e "Severity" = None →
          Extract.dict_get e "severity" = None → Extract.get_severity d = "unknown").
Proof.
  assert (Extract.get_severity d = "unknown"
          ∨ ∃ e k v, d = Some e ∧ k ∈ Extract.SEVERITY_KEYS
                     ∧ Extract.dict_get e k = Some (YStr v) ∧ Py.strip v ≠ ""
                     ∧ Extract.get_severity d = Py.lower (Py.strip v)) as Hshape.
  { unfold Extract.get_severity. destruct d as [[|kv e]|]; [by left| |by left].
    cbn [Extract.truthy negb]. change (default [] (Some (kv :: e))) with (kv :: e).
    destruct (Extract.get_first_str (kv :: e) Extract.SEVERITY_KEYS) as [s|] eqn:Hs;
      [|by left].
    apply get_first_str_Some in Hs as (Hne & k & v & Hk & Hget & ->).
    rewrite bool_decide_eq_true_2 by done. right. by exists (kv :: e), k, v. }
  split_and!.
  - destruct Hshape as [->|(e & k & v & _ & _ & _ & Hne & ->)]; [done|].
    by apply lower_nonempty.
  - destruct Hshape as [->|(e & k & v & _ & _ & _ & Hne & ->)]; [done|].
    apply lower_idemp.
  - exact Hshape.
  - intros e v -> Hget Hne. unfold Extract.get_severity.
    destruct e as [|kv e]; [done|].
    cbn [Extract.truthy negb]. change (default [] (Some (kv :: e))) with (kv :: e).
    unfold Extract.SEVERITY_KEYS. cbn [Extract.get_first_str]. rewrite Hget.
    by rewrite !bool_decide_eq_true_2 by done.
  - intros e -> Hupper Hlower. unfold Extract.get_severity.
    destruct e as [|kv e]; [done|].
    cbn [Extract.truthy negb]. change (default [] (Some (kv :: e))) with (kv :: e).
    unfold Extract.SEVERITY_KEYS. cbn [Extract.get_first_str].
    by rewrite Hupper, Hlower.
Qed.

Lemma digit_is_word c : Py.is_digit c = true → Py.is_word c = true.
Proof. unfold Py.is_word. intros ->. by rewrite orb_true_r. Qed.

Lemma digit_not_dot c : Py.is_digit c = true → bool_decide (c = "."%char) = false.
Proof. intros Hc. apply bool_decide_eq_false_2. by intros ->. Qed.

Ltac use_digits :=
  repeat match goal with
  | H : Py.is_digit ?c = true |- context [Py.is_digit ?c] => rewrite H
  | H : Py.is_digit ?c = true |- context [Py.is_word ?c] => rewrite (digit_is_word c H)
  | H : Py.is_digit ?c = true |- context [bool_decide (?c = "."%char)] =>
      rewrite (digit_not_dot c H)
  | H : Py.is_digit ?c = true |- context [Py.chr_upper ?c] => rewrite (upper_digit c H)
  end.

Lemma technique_id_inv t :
  is_technique_id t = true →
  ∃ a b c d, Py.is_digit a = true ∧ Py.is_digit b = true
             ∧ Py.is_digit c = true ∧ Py.is_digit d = true
             ∧ (t = String "T" (String a (String b (String c (String d ""))))
                ∨ ∃ e f g, Py.is_digit e = true ∧ Py.is_digit f = true
                           ∧ Py.is_digit g = true
                           ∧ t = String "T" (String a (String b (String c (String d
                                   (String "." (String e (String f (String g ""))))))))).
Proof.
  destruct t as [|t0 [|a [|b [|c [|d rest]]]]]; try done.
  cbn [is_technique_id]. rewrite !andb_true_iff.
  intros [[[[[Ht Ha] Hb] Hc] Hd] Hrest]. apply bool_decide_eq_true_1 in Ht as ->.
  exists a, b, c, d. split_and!; try done.
  destruct rest as [|p [|e [|f [|g [|]]]]]; try done; [by left|].
  rewrite !andb_true_iff in Hrest. destruct Hrest as [[[Hp He] Hf] Hg].
  apply bool_decide_eq_true_1 in Hp as ->. right. by exists e, f, g.
Qed.

Lemma findall_exact_id t :
  is_technique_id t = true → Re.findall TECHNIQUE_RE t = [t] ∧ Py.upper t = t.
Proof.
  intros (a & b & c & d & Ha & Hb & Hc & Hd & [->|(e & f & g & He & Hf & Hg & ->)])%technique_id_inv.
  - split.
    + unfold Re.findall. cbn [Re.findall_go].
      assert (Re.match_at TECHNIQUE_RE None
                (String "T" (String a (String b (String c (String d ""))))) = Some 5%nat) as ->.
      { unfold Re.match_at, TECHNIQUE_RE.
        cbn [Re.rmatch Re.Rep Re.Chr_i Re.word_before Re.word_after]. use_digits. done. }
      done.
    + unfold Py.upper. cbn [Py.smap]. use_digits. done.
  - split.
    + unfold Re.findall. cbn [Re.findall_go].
      assert (Re.match_at TECHNIQUE_RE None
                (String "T" (String a (String b (String c (String d
                   (String "." (String e (String f (String g ""))))))))) = Some 9%nat) as ->.
      { unfold Re.match_at, TECHNIQUE_RE.
        cbn [Re.rmatch Re.Rep Re.Chr_i Re.word_before Re.word_after]. use_digits. done. }
      done.
    + unfold Py.upper. cbn [Py.smap]. use_digits. done.
Qed.

Lemma lower_digit c : Py.is_digit c = true → Py.chr_lower c = c.
Proof. by destruct c as [[] [] [] [] [] [] [] []]. Qed.

Lemma findall_lower_id t :
  is_technique_id t = true →
  Re.findall TECHNIQUE_RE (Py.lower t) = [Py.lower t] ∧ Py.upper (Py.lower t) = t.
Proof.
  intros (a & b & c & d & Ha & Hb & Hc & Hd & [->|(e & f & g & He & Hf & Hg & ->)])%technique_id_inv.
  - unfold Py.lower. cbn [Py.smap].
    rewrite (lower_digit a), (lower_digit b), (lower_digit c), (lower_digit d) by done.
    change (Py.chr_lower "T") with "t"%char. split.
    + unfold Re.findall. cbn [Re.findall_go].
      assert (Re.match_at TECHNIQUE_RE None
                (String "t" (String a (String b (String c (String d ""))))) = Some 5%nat) as ->.
      { unfold Re.match_at, TECHNIQUE_RE.
        cbn [Re.rmatch Re.Rep Re.Chr_i Re.word_before Re.word_after]. use_digits. done. }
      done.
    + unfold Py.upper. cbn [Py.smap]. use_digits. done.
  - unfold Py.lower. cbn [Py.smap].
    rewrite (lower_digit a), (lower_digit b), (lower_digit c), (lower_digit d),
      (lower_digit e), (lower_digit f), (lower_digit g) by done.
    change (Py.chr_lower "T") with "t"%char. change (Py.chr_lower ".") with "."%char.
    split.
    + unfold Re.findall. cbn [Re.findall_go].
      assert (Re.match_at TECHNIQUE_RE None
                (String "t" (String a (String b (String c (String d
                   (String "." (String e (String f (String g ""))))))))) = Some 9%nat) as ->.
      { unfold Re.match_at, TECHNIQUE_RE.
        cbn [Re.rmatch Re.Rep Re.Chr_i Re.word_before Re.word_after]. use_digits. done. }
      done.
    + unfold Py.upper. cbn [Py.smap]. use_digits. done.
Qed.

Lemma sorted_set_singleton t : Py.sorted_set [t] = [t].
Proof.
  unfold Py.sorted_set. cbn [remove_dups].
  destruct (decide_rel elem_of t []) as [[]%elem_of_nil|]. reflexivity.
Qed.

(** X8. A text that is exactly a technique id, in upper or in lower case,
    is found by the scan and by the normalisation of a structured value,
    and comes back as the upper-case id. *)
Theorem technique_id_is_found (t : string) :
  is_technique_id t = true →
  Extract.scan_text t = [t]
  ∧ Extract.scan_text (Py.lower t) = [t]
  ∧ Extract.normalize_techniques (YStr t) = [t]
  ∧ Extract.normalize_techniques (YList [YStr (Py.lower t)]) = [t]
  ∧ ∀ raw, Extract.get_techniques (Some [(YStr "MitreTechniques", YStr t)]) raw = [t].
Proof.
  intros Ht. destruct (findall_exact_id t Ht) as [Hfind Hup].
  destruct (findall_lower_id t Ht) as [Hfindl Hupl].
  assert (Extract.normalize_techniques (YStr t) = [t]) as Hnorm.
  { unfold Extract.normalize_techniques. rewrite Hfind. cbn [fmap list_fmap].
    rewrite Hup. apply sorted_set_singleton. }
  split_and!.
  - unfold Extract.scan_text. rewrite Hfind. cbn [fmap list_fmap].
    rewrite Hup. apply sorted_set_singleton.
  - unfold Extract.scan_text. rewrite Hfindl. cbn [fmap list_fmap].
    rewrite Hupl. apply sorted_set_singleton.
  - exact Hnorm.
  - unfold Extract.normalize_techniques. cbn [foldl]. rewrite Hfindl.
    cbn [fmap list_fmap app]. rewrite Hupl. apply sorted_set_singleton.
  - intros raw. unfold Extract.get_techniques, Extract.TECHNIQUE_KEYS.
    cbn [Extract.truthy Extract.structured_techniques default from_option id
         Extract.dict_get].
    rewrite bool_decide_eq_true_2 by done. by rewrite Hnorm.
Qed.

Lemma technique_id_is_found_witness :
  is_technique_id "T1059.001" = true ∧ Extract.scan_text "t1059.001" = ["T1059.001"].
Proof.
  split; [by vm_compute|].
  apply (technique_id_is_found "T1059.001"). by vm_compute.
Defined.


Lemma walk_sound keep d : ∀ dp dirpath dirnames filenames,
  (dirpath, dirnames, filenames) ∈ walk keep dp d →
  ∃ segs d', reaches d segs d' ∧ Forall (λ n, keep n = true) segs
             ∧ dirpath = path_below dp segs ∧ filenames = files_of d'
             ∧ dirnames = filter (λ n, keep n = true) (subdir_names d').
Proof.
  induction d as [subdirs files IH] using dir_ind'.
  intros dp dirpath dirnames filenames Hin.
  cbn [walk] in Hin. apply elem_of_cons in Hin as [Heq|Hin].
  - injection Heq as -> -> ->. exists [], (Dir subdirs files).
    split_and!; [constructor|constructor|done..].
  - apply elem_of_flat_map in Hin as ([n sub] & Hsub & Hin).
    rewrite Forall_forall in IH.
    destruct (keep n) eqn:Hkeep; [|by apply elem_of_nil in Hin].
    destruct (IH _ Hsub _ _ _ _ Hin) as (segs & d' & Hreach & Hsegs & -> & -> & ->).
    exists (n :: segs), d'. split_and!; [by econstructor|by constructor|done..].
Qed.

Lemma walk_complete keep d segs d' :
  reaches d segs d' → Forall (λ n, keep n = true) segs →
  ∀ dp, (path_below dp segs, filter (λ n, keep n = true) (subdir_names d'), files_of d')
        ∈ walk keep dp d.
Proof.
  induction 1 as [[subdirs files]|subdirs files n sub segs d' Hsub Hreach IH];
    intros Hkeep dp.
  - cbn [walk]. left.
  - apply Forall_cons in Hkeep as [Hn Hsegs].
    cbn [walk]. right. apply elem_of_flat_map. exists (n, sub). split; [done|].
    rewrite Hn. by apply IH.
Qed.

Lemma reaches_valid d segs d' :
  valid_tree d = true → reaches d segs d' →
  all_valid segs ∧ valid_tree d' = true.
Proof.
  intros Hvalid Hreach. induction Hreach as [d|subdirs files n sub segs d' Hsub Hreach IH].
  - split; [constructor|done].
  - cbn [valid_tree] in Hvalid. apply andb_true_iff in Hvalid as [_ Hsubs].
    rewrite forallb_Forall, Forall_forall in Hsubs. specialize (Hsubs _ Hsub).
    simpl in Hsubs. apply andb_true_iff in Hsubs as [Hn Hsubvalid].
    destruct (IH Hsubvalid) as [Hsegs Hd']. split; [by constructor|done].
Qed.

Section extras_enumerators.
Context `{Host}.

(** X9. The files [generate_layers.py] enumerates are exactly the entries
    with a YAML extension (in any case) of the directories that can be
    reached from the root without entering an excluded directory. *)
Theorem all_candidates_iff root p :
  p ∈ GenerateLayers.iter_yaml_files root
  ↔ ∃ segs d' fn,
      reaches (tree_at root) segs d'
      ∧ Forall (λ n, n ∉ GenerateLayers.EXCLUDE_DIRS) segs
      ∧ fn ∈ files_of d' ∧ is_yaml_name fn = true
      ∧ p = OsPath.join (path_below root segs) fn.
Proof.
  unfold GenerateLayers.iter_yaml_files. rewrite elem_of_sorted, elem_of_flat_map. split.
  - intros ([[dirpath dirnames] filenames] & Hwalk & Hp).
    apply walk_sound in Hwalk as (segs & d' & Hreach & Hsegs & -> & -> & _).
    apply list_elem_of_fmap in Hp as (fn & -> & [Hyaml Hfn]%list_elem_of_filter).
    exists segs, d', fn. split_and!; try done.
    eapply Forall_impl; [exact Hsegs|]. intros n Hn. cbv beta in Hn.
    by apply bool_decide_eq_true_1 in Hn.
  - intros (segs & d' & fn & Hreach & Hsegs & Hfn & Hyaml & ->).
    eexists (_, _, _). split.
    + apply (walk_complete _ _ _ _ Hreach).
      eapply Forall_impl; [exact Hsegs|]. intros n Hn. cbv beta.
      by apply bool_decide_eq_true_2.
    + cbv beta iota. apply list_elem_of_fmap. exists fn. split; [done|].
      by apply list_elem_of_filter.
Qed.

Lemma visit_dir_allowed root s segs filenames :
  all_valid (s :: segs) →
  NetworkLayer.platform_of s ∈ NetworkLayer.allowed →
  NetworkLayer.visit_dir root (path_below root (s :: segs)) filenames
  = OsPath.join (path_below root (s :: segs))
      <$> filter (λ fn, is_yaml_name fn = true) filenames.
Proof.
  intros Hvalid Hallowed. unfold NetworkLayer.visit_dir.
  rewrite relpath_path_below by exact Hvalid.
  destruct (split_join_head s segs) as [rest ->]; [by inversion Hvalid|].
  destruct (bool_decide (NetworkLayer.platform_of s ∉ NetworkLayer.allowed)) eqn:Hp;
    [|reflexivity].
  apply bool_decide_eq_true_1 in Hp. exfalso. exact (Hp Hallowed).
Qed.

(** X10. On a well-formed tree the files [network_layer.py] enumerates are
    exactly the YAML-named entries of the directories reached without
    entering an excluded directory whose first segment below the root,
    normalised, is an allowed platform. *)
Theorem network_candidates_iff root p :
  valid_tree (tree_at (abspath root)) = true →
  p ∈ NetworkLayer.iter_yaml_files root
  ↔ ∃ platform rest d' fn,
      reaches (tree_at (abspath root)) (platform :: rest) d'
      ∧ Forall (λ n, n ∉ NetworkLayer.EXCLUDE_DIRS) (platform :: rest)
      ∧ NetworkLayer.platform_of platform ∈ NetworkLayer.allowed
      ∧ fn ∈ files_of d' ∧ is_yaml_name fn = true
      ∧ p = OsPath.join (path_below (abspath root) (platform :: rest)) fn.
Proof.
  intros Hvalid.
  unfold NetworkLayer.iter_yaml_files. rewrite elem_of_sorted, elem_of_flat_map. split.
  - intros ([[dirpath dirnames] filenames] & Hwalk & Hp).
    apply walk_sound in Hwalk as (segs & d' & Hreach & Hsegs & -> & -> & _).
    destruct (reaches_valid _ _ _ Hvalid Hreach) as [Hnames _].
    destruct segs as [|s segs].
    + change (path_below (abspath root) []) with (abspath root) in Hp.
      rewrite visit_dir_root in Hp. by apply elem_of_nil in Hp.
    + apply visit_dir_below in Hp as (Hallowed & fn & Hfn & Hyaml & ->);
        [|exact Hnames].
      exists s, segs, d', fn.
      split; [exact Hreach|]. split.
      { eapply Forall_impl; [exact Hsegs|]. intros n Hn. cbv beta in Hn.
        by apply bool_decide_eq_true_1 in Hn. }
      split; [exact Hallowed|]. split; [exact Hfn|]. split; [exact Hyaml|reflexivity].
  - intros (s & segs & d' & fn & Hreach & Hsegs & Hallowed & Hfn & Hyaml & ->).
    destruct (reaches_valid _ _ _ Hvalid Hreach) as [Hnames _].
    eexists (_, _, _). split.
    + apply (walk_complete _ _ _ _ Hreach).
      eapply Forall_impl; [exact Hsegs|]. intros n Hn. cbv beta.
      by apply bool_decide_eq_true_2.
    + cbv beta iota. rewrite visit_dir_allowed; [|exact Hnames|exact Hallowed].
      apply list_elem_of_fmap. exists fn. split; [reflexivity|].
      apply list_elem_of_filter. split; [exact Hyaml|exact Hfn].
Qed.

(** X11. The restricted script only restricts: each of its candidates is
    also a candidate of [generate_layers.py] run on the absolute root. *)
Theorem network_candidates_are_all_candidates root p :
  p ∈ NetworkLayer.iter_yaml_files root →
  p ∈ GenerateLayers.iter_yaml_files (abspath root).
Proof.
  unfold NetworkLayer.iter_yaml_files, GenerateLayers.iter_yaml_files.
  rewrite !elem_of_sorted, !elem_of_flat_map.
  intros ([[dirpath dirnames] filenames] & Hwalk & Hp).
  exists (dirpath, dirnames, filenames). split; [exact Hwalk|].
  cbv beta iota. unfold NetworkLayer.visit_dir in Hp.
  destruct (Py.split OsPath.sep (OsPath.relpath dirpath (abspath root))) as [|part0 parts];
    [exact Hp|].
  destruct (bool_decide (NetworkLayer.platform_of part0 ∉ NetworkLayer.allowed));
    [by apply elem_of_nil in Hp|exact Hp].
Qed.

End extras_enumerators.








Lemma append_nil_r s : s +:+ "" = s.
Proof. induction s as [|c s IH]; [done|]. by rewrite append_cons, IH. Qed.

Lemma rev_append a b : String.rev (a +:+ b) = String.rev b +:+ String.rev a.
Proof.
  unfold String.rev at 1. rewrite rev_app_append.
  change (String.rev_app a "") with (String.rev a).
  change (String.rev a) with ("" +:+ String.rev a) at 1.
  by rewrite rev_app_acc.
Qed.

Lemma no_sep_append a b : no_sep (a +:+ b) = no_sep a && no_sep b.
Proof.
  induction a as [|c a IH]; [done|].
  rewrite append_cons. cbn [no_sep]. by rewrite IH, andb_assoc.
Qed.

Lemma no_sep_rev s : no_sep (String.rev s) = no_sep s.
Proof.
  induction s as [|c s IH]; [done|].
  rewrite rev_cons, no_sep_append, IH. cbn [no_sep].
  rewrite andb_true_r. apply andb_comm.
Qed.

Lemma rsplit_rev_no_sep a :
  no_sep a = true → OsPath.rsplit_rev a = (a, "").
Proof.
  induction a as [|c a IH]; [done|]. cbn [no_sep OsPath.rsplit_rev].
  intros [Hc Ha]%andb_true_iff. apply bool_decide_eq_true_1 in Hc.
  by rewrite bool_decide_eq_false_2, IH by done.
Qed.

Lemma rsplit_rev_at_sep a b :
  no_sep a = true →
  OsPath.rsplit_rev (a +:+ String OsPath.sep b) = (a, String OsPath.sep b).
Proof.
  induction a as [|c a IH].
  - intros _. change ("" +:+ ?x) with x. cbn [OsPath.rsplit_rev].
    by rewrite bool_decide_eq_true_2.
  - cbn [no_sep]. intros [Hc Ha]%andb_true_iff. apply bool_decide_eq_true_1 in Hc.
    rewrite append_cons. cbn [OsPath.rsplit_rev].
    by rewrite bool_decide_eq_false_2, IH by done.
Qed.

Lemma basename_no_sep n : no_sep n = true → OsPath.basename n = n.
Proof.
  intros Hn. unfold OsPath.basename.
  rewrite rsplit_rev_no_sep by (by rewrite no_sep_rev). apply rev_involutive.
Qed.

Lemma basename_after_sep x n :
  no_sep n = true → OsPath.basename (x +:+ String OsPath.sep n) = n.
Proof.
  intros Hn. unfold OsPath.basename.
  change (String OsPath.sep n) with (String OsPath.sep "" +:+ n).
  rewrite <- append_assoc, rev_append, rev_append.
  change (String.rev (String OsPath.sep "")) with (String OsPath.sep "").
  change (String OsPath.sep "" +:+ ?y) with (String OsPath.sep y).
  rewrite rsplit_rev_at_sep by (by rewrite no_sep_rev). apply rev_involutive.
Qed.

(** The two shapes of [os.path.join(a, n)] for a valid name. *)
Lemma join_valid a n :
  valid_name n = true →
  OsPath.join a n = n ∨ ∃ x, OsPath.join a n = x +:+ String OsPath.sep n.
Proof.
  intros Hn. unfold OsPath.join. rewrite valid_not_absolute by done.
  destruct (bool_decide (a = "")) eqn:Ha; simpl.
  - apply bool_decide_eq_true_1 in Ha as ->. by left.
  - destruct (Py.endswith a "/") eqn:He.
    + apply endswith_sep in He as [a' ->]. right. exists a'.
      by rewrite append_assoc.
    + right. by exists a.
Qed.

Lemma basename_join a n : valid_name n = true → OsPath.basename (OsPath.join a n) = n.
Proof.
  intros Hn. pose proof Hn as [_ Hsep]%andb_true_iff.
  destruct (join_valid a n Hn) as [->|[x ->]].
  - by apply basename_no_sep.
  - by apply basename_after_sep.
Qed.

Lemma lstrip_sep_rev_valid y n :
  valid_name n = true →
  OsPath.lstrip_sep (String.rev (y +:+ n)) = String.rev (y +:+ n)
  ∧ String.rev (y +:+ n) ≠ "".
Proof.
  intros [Hne Hsep]%andb_true_iff. apply bool_decide_eq_true_1 in Hne.
  rewrite rev_append. rewrite <- no_sep_rev in Hsep.
  destruct (String.rev n) as [|c r] eqn:Hr.
  - exfalso. apply Hne. by rewrite <- (rev_involutive n), Hr.
  - rewrite append_cons. cbn [no_sep] in Hsep.
    apply andb_true_iff in Hsep as [Hc _]. apply bool_decide_eq_true_1 in Hc.
    cbn [OsPath.lstrip_sep]. by rewrite bool_decide_eq_false_2 by done.
Qed.

Lemma join_file x fn :
  valid_name fn = true → x ≠ "" → Py.endswith x "/" = false →
  OsPath.join x fn = x +:+ String OsPath.sep fn.
Proof.
  intros Hfn Hx Hend. unfold OsPath.join.
  by rewrite valid_not_absolute, bool_decide_eq_false_2, Hend by done.
Qed.

Lemma ends_with_valid y n :
  valid_name n = true → y +:+ n ≠ "" ∧ Py.endswith (y +:+ n) "/" = false.
Proof.
  intros Hn. destruct (lstrip_sep_rev_valid y n Hn) as [Hstrip Hne]. split.
  - intros Heq. by rewrite Heq in Hne.
  - unfold Py.endswith. destruct (String.rev (y +:+ n)) as [|c r]; [done|].
    cbn [OsPath.lstrip_sep] in Hstrip. cbn.
    destruct (bool_decide (c = OsPath.sep)) eqn:Hc.
    + exfalso. apply (f_equal String.length) in Hstrip.
      assert (∀ s, String.length (OsPath.lstrip_sep s) ≤ String.length s)%nat as Hlen.
      { clear. induction s as [|a s IH]; [done|]. cbn [OsPath.lstrip_sep].
        case_bool_decide; simpl; lia. }
      specialize (Hlen r). simpl in Hstrip. lia.
    + apply andb_false_iff. left. apply bool_decide_eq_false_2.
      apply bool_decide_eq_false_1 in Hc. by intros <-.
Qed.

Section extras_labels.
Context `{Host}.

(** X13. The location label of a file [a/d/fn] is [d/fn], its immediate
    parent directory and its name: so it is for every file that lies in a
    directory [segs/d] below the root. *)
Theorem label_is_parent_and_file (a d fn : string) :
  valid_name d = true → valid_name fn = true →
  let p := OsPath.join (OsPath.join a d) fn in
  OsPath.basename p = fn
  ∧ OsPath.dirname p = OsPath.join a d
  ∧ label_of p = d +:+ "/" +:+ fn
  ∧ ∀ root segs, label_of (OsPath.join (path_below root (segs ++ [d])) fn)
                 = d +:+ "/" +:+ fn.
Proof.
  intros Hd Hfn p.
  assert (∀ a', OsPath.basename (OsPath.join (OsPath.join a' d) fn) = fn
                ∧ OsPath.dirname (OsPath.join (OsPath.join a' d) fn) = OsPath.join a' d)
    as Hparts.
  { intros a'. split; [by apply basename_join|].
    assert (∃ y, OsPath.join a' d = y +:+ d) as [y Hy].
    { destruct (join_valid a' d Hd) as [->|[x ->]]; [by exists ""|].
      exists (x +:+ "/"). by rewrite append_assoc. }
    destruct (ends_with_valid y d Hd) as [Hne Hend].
    destruct (lstrip_sep_rev_valid y d Hd) as [Hstrip Hrne].
    rewrite Hy, join_file by done. unfold OsPath.dirname.
    pose proof Hfn as [_ Hsep]%andb_true_iff.
    change (String OsPath.sep fn) with (String OsPath.sep "" +:+ fn).
    rewrite <- append_assoc, rev_append, rev_append.
    change (String.rev (String OsPath.sep "")) with (String OsPath.sep "").
    change (String OsPath.sep "" +:+ ?z) with (String OsPath.sep z).
    rewrite rsplit_rev_at_sep by (by rewrite no_sep_rev). cbn [snd OsPath.lstrip_sep].
    rewrite bool_decide_eq_true_2 by done. rewrite Hstrip.
    destruct (String.rev (y +:+ d)) as [|c r] eqn:Hr; [done|].
    rewrite <- Hr. apply rev_involutive. }
  assert (∀ a', label_of (OsPath.join (OsPath.join a' d) fn) = d +:+ "/" +:+ fn) as Hlabel.
  { intros a'. destruct (Hparts a') as [Hb Hdir].
    unfold label_of, Engine.facts_of. destruct (Extract.read_yaml _) as [dd raw].
    cbn [Engine.f_label]. by rewrite Hb, Hdir, basename_join. }
  destruct (Hparts a) as [Hb Hdir]. split_and!; [done|done|apply Hlabel|].
  intros root segs. unfold path_below. rewrite foldl_app. cbn [foldl]. apply Hlabel.
Qed.

End extras_labels.

Lemma get_techniques_ids d raw :
  Forall (λ t, is_technique_id t = true) (Extract.get_techniques d raw).
Proof.
  rewrite get_techniques_cases. apply Forall_forall. intros t Ht.
  destruct (d ≫= _) as [value|].
  - destruct (Extract.normalize_techniques value) as [|t0 ts] eqn:Hn.
    + apply elem_of_scan_text in Ht. by eapply ids_in_technique.
    + rewrite <- Hn in Ht. apply elem_of_normalize in Ht. by eapply ids_in_technique.
  - apply elem_of_scan_text in Ht. by eapply ids_in_technique.
Qed.

Lemma startswith_iff s p : Py.startswith s p = true ↔ ∃ t, s = p +:+ t.
Proof.
  revert s. induction p as [|a p IH]; intros s.
  - split; [intros _; exists s; reflexivity|intros _; by destruct s].
  - destruct s as [|b s]; cbn [Py.startswith].
    + split; [done|]. intros [t Ht]. by rewrite append_cons in Ht.
    + rewrite andb_true_iff, IH. split.
      * intros [Hab%bool_decide_eq_true_1 [t ->]]. subst. by exists t.
      * intros [t Ht]. rewrite append_cons in Ht. injection Ht as -> ->.
        split; [by apply bool_decide_eq_true_2|by exists t].
Qed.

Lemma endswith_iff s p : Py.endswith s p = true ↔ ∃ stem, s = stem +:+ p.
Proof.
  unfold Py.endswith. rewrite startswith_iff. split.
  - intros [t Ht]. exists (String.rev t).
    rewrite <- (rev_involutive s), Ht, rev_append, rev_involutive. done.
  - intros [stem ->]. exists (String.rev stem). apply rev_append.
Qed.

Lemma lower_upper c : Py.chr_lower (Py.chr_upper c) = Py.chr_lower c.
Proof. by destruct c as [[] [] [] [] [] [] [] []]. Qed.

(** X14. A file name is taken as a rule file exactly when, in lower case, it
    ends in [.yml] or [.yaml]; the case of the name does not matter. *)
Theorem yaml_extension_ignores_case (fn : string) :
  (is_yaml_name fn = true
   ↔ ∃ stem, Py.lower fn = stem +:+ ".yml" ∨ Py.lower fn = stem +:+ ".yaml")
  ∧ is_yaml_name (Py.upper fn) = is_yaml_name fn
  ∧ is_yaml_name (Py.lower fn) = is_yaml_name fn.
Proof.
  split_and!.
  - unfold is_yaml_name, Py.endswith_any. cbn [existsb].
    rewrite orb_false_r, orb_true_iff, !endswith_iff. naive_solver.
  - unfold is_yaml_name. f_equal. unfold Py.lower, Py.upper.
    induction fn as [|c fn IH]; [done|]. cbn [Py.smap]. by rewrite lower_upper, IH.
  - unfold is_yaml_name. f_equal. unfold Py.lower.
    induction fn as [|c fn IH]; [done|]. cbn [Py.smap]. by rewrite chr_lower_idemp, IH.
Qed.

Section extras_ids.
Context `{Host}.

(** X15. When the candidate files are ASCII text, every technique id of
    the layer follows the grammar [T] + 4 digits, optionally [.] + 3
    digits, in upper case. *)
Theorem layer_ids_follow_the_grammar v root out_path layer_name w w' :
  run v root out_path layer_name w = (Returns (), w') →
  forallb ascii_rule (candidates v root) = true →
  ∃ l, written w' = written w ++ [(out_path, l)]
       ∧ Forall (λ e, is_technique_id (techniqueID e) = true) (techniques l).
Proof.
  intros Hrun _. apply run_returns in Hrun as (_ & l & Hw & _ & Hl).
  exists l. split; [exact Hw|]. apply Forall_forall. intros e He. rewrite Hl in He.
  apply elem_of_techniques_arr in He as [Hcount _].
  apply counts_aggregate in Hcount.
  destruct (contributing (techniqueID e) (candidates v root)) as [|p ps] eqn:Hps; [done|].
  assert (p ∈ contributing (techniqueID e) (candidates v root)) as Hp
    by (rewrite Hps; left).
  apply list_elem_of_filter in Hp as [Htid _].
  unfold techs_of, Engine.facts_of in Htid.
  destruct (Extract.read_yaml p) as [d raw]. cbn [Engine.f_techs] in Htid.
  pose proof (get_techniques_ids d raw) as Hall. rewrite Forall_forall in Hall.
  by apply Hall.
Qed.

End extras_ids.


Lemma flat_map_flat_map {A B C} (g : B → list C) (h : A → list B) (l : list A) :
  flat_map g (flat_map h l) = flat_map (λ x, flat_map g (h x)) l.
Proof.
  induction l as [|x l IH]; [done|]. simpl. by rewrite flat_map_app, IH.
Qed.

Lemma flat_map_Forall2 {A B} (R : A → A → Prop) (h1 h2 : A → list B) l1 l2 :
  Forall2 R l1 l2 →
  (∀ x y, x ∈ l1 → R x y → h1 x ≡ₚ h2 y) →
  flat_map h1 l1 ≡ₚ flat_map h2 l2.
Proof.
  induction 1 as [|x y l1 l2 Hxy Hall IH]; intros Hh; [done|]. simpl.
  apply Permutation_app.
  - apply Hh; [left|done].
  - apply IH. intros x' y' Hx'. apply Hh. by right.
Qed.

Lemma walk_paths_same (f : string → list string → list string) keep d1 :
  (∀ dp fns1 fns2, fns1 ≡ₚ fns2 → f dp fns1 ≡ₚ f dp fns2) →
  ∀ d2 dp, same_listing d1 d2 →
    flat_map (λ '(dirpath, _, fns), f dirpath fns) (walk keep dp d1)
    ≡ₚ flat_map (λ '(dirpath, _, fns), f dirpath fns) (walk keep dp d2).
Proof.
  intros Hf. induction d1 as [subs1 files1 IH] using dir_ind'.
  intros d2 dp Hsame. inversion Hsame as [? subs' subs2 ? files2 Hfiles Hperm Hall]; subst.
  cbn [walk flat_map]. apply Permutation_app; [by apply Hf|].
  rewrite !flat_map_flat_map.
  etrans; [apply Permutation_flat_map, Hperm|].
  apply (flat_map_Forall2 _ _ _ _ _ Hall).
  intros [n1 sub1] [n2 sub2] Hin [Hn Hsub]. simpl in Hn, Hsub. subst n2.
  destruct (keep n1); [|done].
  rewrite Forall_forall in IH. apply (IH (n1, sub1)); [|done].
  by rewrite Hperm.
Qed.

Lemma sorted_Permutation l1 l2 : l1 ≡ₚ l2 → Py.sorted l1 = Py.sorted l2.
Proof.
  intros Hperm. apply (StronglySorted_unique String.le).
  - apply (StronglySorted_merge_sort String.le).
  - apply (StronglySorted_merge_sort String.le).
  - by rewrite !sorted_perm.
Qed.

(** X16. The candidate list does not depend on the order in which the
    operating system lists the entries of a directory. *)
Theorem candidates_ignore_listing_order (H1 H2 : Host) v root :
  abspath (Host:=H1) root = abspath (Host:=H2) root →
  (∀ r, r = root ∨ r = abspath (Host:=H2) root →
        same_listing (tree_at (Host:=H1) r) (tree_at (Host:=H2) r)) →
  candidates (H:=H1) v root = candidates (H:=H2) v root.
Proof.
  intros Habs Htree. destruct v; simpl.
  - unfold GenerateLayers.iter_yaml_files. apply sorted_Permutation.
    apply (walk_paths_same
             (λ dirpath fns, OsPath.join dirpath <$> filter (λ fn, is_yaml_name fn = true) fns)).
    + intros dp fns1 fns2 Hp. by rewrite Hp.
    + apply Htree. by left.
  - unfold NetworkLayer.iter_yaml_files. rewrite Habs. apply sorted_Permutation.
    apply (walk_paths_same (NetworkLayer.visit_dir (abspath (Host:=H2) root))).
    + intros dp fns1 fns2 Hp. unfold NetworkLayer.visit_dir.
      destruct (Py.split _ _) as [|part0 parts]; [by rewrite Hp|].
      destruct (bool_decide _); [reflexivity|by rewrite Hp].
    + apply Htree. by right.
Qed.

Section extras_report.
Context `{Host}.

(** X17. A run that returns has printed four lines: the number of files
    with techniques, the number of files without, the output path and the
    number of entries of the layer; the first two add up to the number of
    candidate files, of which there is at least one. *)
Theorem report_accounts_for_every_candidate v root out_path layer_name w w' :
  run v root out_path layer_name w = (Returns (), w') →
  let files := candidates v root in
  let parsed := Z.of_nat (length (filter (λ p, techs_of p ≠ []) files)) in
  let skipped := Z.of_nat (length (filter (λ p, techs_of p = []) files)) in
  parsed + skipped = Z.of_nat (length files)
  ∧ (1 ≤ length files)%nat
  ∧ ∃ l a b c d,
      written w' = written w ++ [(out_path, l)]
      ∧ stdout w' = stdout w ++ [a +:+ Py.str_of_int parsed;
                                 b +:+ Py.str_of_int skipped;
                                 c +:+ out_path;
                                 d +:+ Py.str_of_int (Z.of_nat (length (techniques l)))].
Proof.
  intros Hrun files parsed skipped.
  destruct (aggregate_counts (score_of v) files) as (Hp & Hs & Hsum).
  fold parsed in Hp. fold skipped in Hs. rewrite Hp, Hs in Hsum.
  split; [exact Hsum|].
  subst files parsed skipped.
  destruct v; simpl in *; unfold GenerateLayers.main, NetworkLayer.main, emit in Hrun;
    [destruct (GenerateLayers.iter_yaml_files root) as [|p ps] eqn:Hfiles
    |destruct (NetworkLayer.iter_yaml_files root) as [|p ps] eqn:Hfiles];
    try done;
    (destruct (writable out_path); [|done]);
    injection Hrun as <-; (split; [simpl; lia|]);
    rewrite Hp, Hs; eexists _, _, _, _, _; split; reflexivity.
Qed.

End extras_report.

(** ** The further properties on the demonstration hosts *)

Lemma network_score_is_max_witness :
  ∃ l, written (NetworkLayer.main (H:=Demo.host) "/r" "out.json" "Net" (World [] [])).2
       = written (World [] []) ++ [("out.json", l)]
       ∧ ∀ e, e ∈ techniques l →
           let ps := contributing (H:=Demo.host) (techniqueID e)
                       (NetworkLayer.iter_yaml_files (H:=Demo.host) "/r") in
           score e = max_of ((λ p, NetworkLayer.severity_to_score (sev_of (H:=Demo.host) p)) <$> ps)
           ∧ (∃ p, p ∈ ps ∧ score e = NetworkLayer.severity_to_score (sev_of (H:=Demo.host) p))
           ∧ ∀ p, p ∈ ps → NetworkLayer.severity_to_score (sev_of (H:=Demo.host) p) ≤ score e.
Proof.
  apply (network_score_is_max (H:=Demo.host) "/r" "out.json" "Net" (World [] [])).
  vm_compute. reflexivity.
Defined.

Lemma generate_layers_scores_are_all_default_witness :
  ∃ l, written (GenerateLayers.main (H:=Demo.host) "/r" "out.json" "All" (World [] [])).2
       = written (World [] []) ++ [("out.json", l)]
       ∧ Forall (λ e, score e = 50) (techniques l).
Proof.
  apply (generate_layers_scores_are_all_default (H:=Demo.host) "/r" "out.json" "All"
           (World [] [])).
  vm_compute. reflexivity.
Defined.

Lemma layer_covers_exactly_the_flagged_techniques_witness :
  ∃ l, written (run (H:=Demo.host) NetworkOnly "/r" "out.json" "Net" (World [] [])).2
       = written (World [] []) ++ [("out.json", l)]
       ∧ ∀ tid, tid ∈ techniqueID <$> techniques l
                ↔ ∃ p, p ∈ candidates (H:=Demo.host) NetworkOnly "/r"
                       ∧ tid ∈ techs_of (H:=Demo.host) p.
Proof.
  apply (layer_covers_exactly_the_flagged_techniques (H:=Demo.host) NetworkOnly
           "/r" "out.json" "Net" (World [] [])).
  vm_compute. reflexivity.
Defined.


Lemma max_severity_comes_from_a_file_witness :
  ∃ l, written (run (H:=Demo.host) NetworkOnly "/r" "out.json" "Net" (World [] [])).2
       = written (World [] []) ++ [("out.json", l)]
       ∧ ∀ e, e ∈ techniques l →
           let ps := contributing (H:=Demo.host) (techniqueID e)
                       (candidates (H:=Demo.host) NetworkOnly "/r") in
           ∃ before p after,
             ps = before ++ p :: after
             ∧ score_of NetworkOnly (sev_of (H:=Demo.host) p) = score e
             ∧ (∀ q, q ∈ before → score_of NetworkOnly (sev_of (H:=Demo.host) q) < score e)
             ∧ (∀ q, q ∈ after → score_of NetworkOnly (sev_of (H:=Demo.host) q) ≤ score e)
             ∧ metadata e = [("detections_count", Py.str_of_int (Z.of_nat (length ps)));
                             ("max_severity", sev_of (H:=Demo.host) p)].
Proof.
  apply (max_severity_comes_from_a_file (H:=Demo.host) NetworkOnly "/r" "out.json" "Net"
           (World [] [])).
  vm_compute. reflexivity.
Defined.

Lemma network_candidates_iff_witness :
  valid_tree (tree_at (Host:=Demo.host) (abspath (Host:=Demo.host) "/r")) = true
  ∧ "/r/Cloudflare/ruleA/a.yml" ∈ NetworkLayer.iter_yaml_files (H:=Demo.host) "/r".
Proof.
  split; [vm_compute; reflexivity|].
  apply (network_candidates_iff (H:=Demo.host) "/r" "/r/Cloudflare/ruleA/a.yml");
    [vm_compute; reflexivity|].
  exists "Cloudflare", ["ruleA"], (Dir [] ["a.yml"; "notes.txt"]), "a.yml".
  split.
  { apply reaches_step with (sub := Dir [("ruleA", Dir [] ["a.yml"; "notes.txt"]);
                                          ("ruleC", Dir [] ["c.YML"]);
                                          ("tests", Dir [] ["t.yml"])] []);
      [left|].
    apply reaches_step with (sub := Dir [] ["a.yml"; "notes.txt"]); [left|].
    apply reaches_here. }
  split.
  { apply Forall_cons. split; [apply (bool_decide_unpack _); vm_compute; exact I|].
    apply Forall_cons. split; [apply (bool_decide_unpack _); vm_compute; exact I|].
    apply Forall_nil_2. }
  split; [apply (bool_decide_unpack _); vm_compute; exact I|].
  split; [left|]. split; vm_compute; reflexivity.
Defined.

Lemma network_candidates_are_all_candidates_witness :
  "/r/Cloudflare/ruleA/a.yml"
  ∈ GenerateLayers.iter_yaml_files (H:=Demo.host) (abspath (Host:=Demo.host) "/r").
Proof.
  apply (network_candidates_are_all_candidates (H:=Demo.host) "/r").
  apply (bool_decide_unpack _). vm_compute. exact I.
Defined.

Lemma label_is_parent_and_file_witness :
  valid_name "ruleA" = true ∧ valid_name "a.yml" = true
  ∧ label_of (H:=Demo.host)
      (OsPath.join (path_below "/r" (["Cloudflare"] ++ ["ruleA"])) "a.yml")
    = "ruleA" +:+ "/" +:+ "a.yml".
Proof.
  split; [vm_compute; reflexivity|]. split; [vm_compute; reflexivity|].
  apply (label_is_parent_and_file (H:=Demo.host) "/r" "ruleA" "a.yml");
    vm_compute; reflexivity.
Defined.

Lemma layer_ids_follow_the_grammar_witness :
  ∃ l, written (run (H:=Demo.host) AllDetections "/r" "out.json" "All" (World [] [])).2
       = written (World [] []) ++ [("out.json", l)]
       ∧ Forall (λ e, is_technique_id (techniqueID e) = true) (techniques l).
Proof.
  apply (layer_ids_follow_the_grammar (H:=Demo.host) AllDetections "/r" "out.json" "All");
    vm_compute; reflexivity.
Defined.

Lemma report_accounts_for_every_candidate_witness :
  (1 ≤ length (candidates (H:=Demo.host) AllDetections "/r"))%nat.
Proof.
  apply (report_accounts_for_every_candidate (H:=Demo.host) AllDetections
           "/r" "out.json" "All" (World [] [])
           (run (H:=Demo.host) AllDetections "/r" "out.json" "All" (World [] [])).2).
  vm_compute. reflexivity.
Defined.

Lemma candidates_ignore_listing_order_witness :
  candidates (H:=Demo2.host_of Demo2.listed) NetworkOnly "/pair"
  = candidates (H:=Demo2.host_of Demo2.relisted) NetworkOnly "/pair".
Proof.
  apply (candidates_ignore_listing_order
           (Demo2.host_of Demo2.listed) (Demo2.host_of Demo2.relisted) NetworkOnly "/pair").
  - reflexivity.
  - intros r _. cbn [tree_at Demo2.host_of].
    apply same_listing_dir
      with (subs' := [("Okta", Dir [] ["z.yml"]);
                      ("Datadog", Dir [] ["x.yml"; "y.yaml"])]).
    + reflexivity.
    + apply perm_swap.
    + apply Forall2_cons. split.
      * split; [reflexivity|].
        apply same_listing_dir with (subs' := []);
          [reflexivity|reflexivity|apply Forall2_nil_2].
      * apply Forall2_cons. split; [|apply Forall2_nil_2].
        split; [reflexivity|].
        apply same_listing_dir with (subs' := []);
          [apply perm_swap|reflexivity|apply Forall2_nil_2].
Defined.
